(** * Forum backend: domain rules of the Post, Comment and User models

    A shallow embedding of the Mongoose models (models/Post.js,
    models/Comment.js, models/User.js) and of the controllers that call
    their instance methods, with the data-integrity properties of votes,
    reports, moderation and membership proved over it.

    Conventions of the embedding:
    - an ObjectId is the number its twelve bytes spell; [equals] and the
      comparison of the [toString] forms are both equality of that number;
    - a Date is its millisecond count; every read of the clock
      ([new Date()], [Date.now()]) is an explicit argument;
    - schema enums are inductive types; free text is a string, held as
      the bytes of its UTF-8 form, while JavaScript measures it in UTF-16
      code units ([jsLength]);
    - an instance method takes the document it is called on ([this]) and
      returns the document after the call;
    - the bookkeeping stamps createdAt/updatedAt kept by the storage
      library are left out. *)

From stdpp Require Import gmap strings list pretty.
From Stdlib Require Import ZArith.

Open Scope Z_scope.

Definition ObjectId := N.
Definition Date := Z.

(** [Array.prototype.find]: the first element that satisfies [P], [None]
    for JavaScript's [undefined]. *)
Fixpoint find {A : Type} (P : A → Prop) `{!∀ x, Decision (P x)}
    (l : list A) : option A :=
  match l with
  | [] => None
  | x :: l' => if decide (P x) then Some x else find P l'
  end.

(** The number of UTF-16 code units a byte of a UTF-8 text stands for: a
    continuation byte (10xxxxxx) none, the lead byte of a four-byte
    sequence (11110xxx, a code point beyond the basic plane, which
    JavaScript holds as a surrogate pair) two, every other byte one. *)
Definition codeUnits (byte : Ascii.ascii) : nat :=
  let n := Ascii.nat_of_ascii byte in
  if (n <? 128)%nat then 1%nat
  else if (n <? 192)%nat then 0%nat
  else if (n <? 240)%nat then 1%nat
  else 2%nat.

(** [String.prototype.length]: the number of UTF-16 code units. *)
Fixpoint jsLength (s : string) : nat :=
  match s with
  | EmptyString => 0%nat
  | String byte s' => (codeUnits byte + jsLength s')%nat
  end.

(** What a method throws, or what the promise it returns rejects with:
    an [Error] built from a message, or a schema validation failure on a
    path (whose message is the storage library's own). *)
Inductive Error :=
| JsError (message : string)
| ValidationError (path : string).

(** ** models/Post.js *)
Module PostModel.

Inductive VoteType := up | down.
Inductive Visibility := public | private.

#[global] Instance VoteType_eq_dec : EqDecision VoteType.
Proof. solve_decision. Defined.
#[global] Instance Visibility_eq_dec : EqDecision Visibility.
Proof. solve_decision. Defined.

Record Voter := {
  userId : ObjectId;
  voteType : VoteType;
  votedAt : Date
}.

Record Post := {
  _id : ObjectId;
  title : string;
  description : string;
  author : ObjectId;
  authorImage : string;
  authorName : string;
  authorEmail : string;
  tags : list string;
  upVote : Z;
  downVote : Z;
  voters : list Voter;
  visibility : Visibility;
  isActive : bool;
  views : Z;
  lastActivity : Date
}.

(** Assignments to one path of the document. *)
Definition set_title (x : string) (p : Post) : Post :=
  {| _id := _id p; title := x; description := description p;
     author := author p; authorImage := authorImage p;
     authorName := authorName p; authorEmail := authorEmail p;
     tags := tags p; upVote := upVote p; downVote := downVote p;
     voters := voters p; visibility := visibility p;
     isActive := isActive p; views := views p;
     lastActivity := lastActivity p |}.

Definition set_description (x : string) (p : Post) : Post :=
  {| _id := _id p; title := title p; description := x;
     author := author p; authorImage := authorImage p;
     authorName := authorName p; authorEmail := authorEmail p;
     tags := tags p; upVote := upVote p; downVote := downVote p;
     voters := voters p; visibility := visibility p;
     isActive := isActive p; views := views p;
     lastActivity := lastActivity p |}.

Definition set_tags (x : list string) (p : Post) : Post :=
  {| _id := _id p; title := title p; description := description p;
     author := author p; authorImage := authorImage p;
     authorName := authorName p; authorEmail := authorEmail p;
     tags := x; upVote := upVote p; downVote := downVote p;
     voters := voters p; visibility := visibility p;
     isActive := isActive p; views := views p;
     lastActivity := lastActivity p |}.

Definition set_upVote (x : Z) (p : Post) : Post :=
  {| _id := _id p; title := title p; description := description p;
     author := author p; authorImage := authorImage p;
     authorName := authorName p; authorEmail := authorEmail p;
     tags := tags p; upVote := x; downVote := downVote p;
     voters := voters p; visibility := visibility p;
     isActive := isActive p; views := views p;
     lastActivity := lastActivity p |}.

Definition set_downVote (x : Z) (p : Post) : Post :=
  {| _id := _id p; title := title p; description := description p;
     author := author p; authorImage := authorImage p;
     authorName := authorName p; authorEmail := authorEmail p;
     tags := tags p; upVote := upVote p; downVote := x;
     voters := voters p; visibility := visibility p;
     isActive := isActive p; views := views p;
     lastActivity := lastActivity p |}.

Definition set_voters (x : list Voter) (p : Post) : Post :=
  {| _id := _id p; title := title p; description := description p;
     author := author p; authorImage := authorImage p;
     authorName := authorName p; authorEmail := authorEmail p;
     tags := tags p; upVote := upVote p; downVote := downVote p;
     voters := x; visibility := visibility p;
     isActive := isActive p; views := views p;
     lastActivity := lastActivity p |}.

Definition set_visibility (x : Visibility) (p : Post) : Post :=
  {| _id := _id p; title := title p; description := description p;
     author := author p; authorImage := authorImage p;
     authorName := authorName p; authorEmail := authorEmail p;
     tags := tags p; upVote := upVote p; downVote := downVote p;
     voters := voters p; visibility := x;
     isActive := isActive p; views := views p;
     lastActivity := lastActivity p |}.

Definition set_isActive (x : bool) (p : Post) : Post :=
  {| _id := _id p; title := title p; description := description p;
     author := author p; authorImage := authorImage p;
     authorName := authorName p; authorEmail := authorEmail p;
     tags := tags p; upVote := upVote p; downVote := downVote p;
     voters := voters p; visibility := visibility p;
     isActive := x; views := views p;
     lastActivity := lastActivity p |}.

Definition set_views (x : Z) (p : Post) : Post :=
  {| _id := _id p; title := title p; description := description p;
     author := author p; authorImage := authorImage p;
     authorName := authorName p; authorEmail := authorEmail p;
     tags := tags p; upVote := upVote p; downVote := downVote p;
     voters := voters p; visibility := visibility p;
     isActive := isActive p; views := x;
     lastActivity := lastActivity p |}.

Definition set_lastActivity (x : Date) (p : Post) : Post :=
  {| _id := _id p; title := title p; description := description p;
     author := author p; authorImage := authorImage p;
     authorName := authorName p; authorEmail := authorEmail p;
     tags := tags p; upVote := upVote p; downVote := downVote p;
     voters := voters p; visibility := visibility p;
     isActive := isActive p; views := views p;
     lastActivity := x |}.

(** [this.voters.filter(voter => voter.voteType === t).length] *)
Definition countVotes (t : VoteType) (vs : list Voter) : Z :=
  Z.of_nat (length (filter (λ voter, voteType voter = t) vs)).

(** [this.voters.filter(voter => !voter.userId.equals(userId))] *)
Definition withoutUser (u : ObjectId) (vs : list Voter) : list Voter :=
  filter (λ voter, userId voter ≠ u) vs.

(** [postSchema.pre('save')]: [orig] is the document as it was loaded,
    which is what [isModified] compares with. *)
Definition preSave (orig this : Post) (now : Date) : Post :=
  if bool_decide (upVote this ≠ upVote orig ∨ downVote this ≠ downVote orig)
  then set_lastActivity now this
  else this.

(** [this.save()]. The paths the methods below write hold a list length
    (never below the schema's [min: 0]) or a member of an enum, so the
    validators pass and what remains of [save] is the hook. *)
Definition save (orig this : Post) (now : Date) : Post :=
  preSave orig this now.

(** [Post.create({title, description, tags, author, authorName,
    authorEmail, authorImage})] as createPost calls it: the other paths
    take their schema defaults. *)
Definition create (id : ObjectId) (title' description' : string)
    (tags' : list string) (author' : ObjectId)
    (authorName' authorEmail' authorImage' : string) (now : Date) : Post :=
  {| _id := id; title := title'; description := description';
     author := author'; authorImage := authorImage';
     authorName := authorName'; authorEmail := authorEmail';
     tags := tags'; upVote := 0; downVote := 0; voters := [];
     visibility := public; isActive := true; views := 0;
     lastActivity := now |}.

(** [postSchema.methods.vote] *)
Definition vote (this : Post) (userId' : ObjectId) (voteType' : VoteType)
    (tVoted tActivity tSave : Date) : Post :=
  let this1 := set_voters (withoutUser userId' (voters this)) this in
  let currentUpVotes := countVotes up (voters this1) in
  let currentDownVotes := countVotes down (voters this1) in
  let this2 :=
    set_voters (voters this1 ++
                [{| userId := userId'; voteType := voteType';
                    votedAt := tVoted |}]) this1 in
  let this3 :=
    match voteType' with
    | up => set_downVote currentDownVotes
              (set_upVote (currentUpVotes + 1) this2)
    | down => set_upVote currentUpVotes
                (set_downVote (currentDownVotes + 1) this2)
    end in
  save this (set_lastActivity tActivity this3) tSave.

(** [postSchema.methods.removeVote] *)
Definition removeVote (this : Post) (userId' : ObjectId) (tSave : Date)
    : Post :=
  let this1 := set_voters (withoutUser userId' (voters this)) this in
  let this2 := set_upVote (countVotes up (voters this1)) this1 in
  let this3 := set_downVote (countVotes down (voters this2)) this2 in
  save this this3 tSave.

(** [postSchema.methods.getUserVote]: [None] is JavaScript's [null]. *)
Definition getUserVote (this : Post) (userId' : ObjectId)
    : option VoteType :=
  voteType <$> find (λ voter, userId voter = userId') (voters this).

(** [postSchema.methods.incrementViews] *)
Definition incrementViews (this : Post) (tSave : Date) : Post :=
  save this (set_views (views this + 1) this) tSave.

End PostModel.

(** ** models/Comment.js *)
Module CommentModel.

Module ReportStatus.
Inductive t := pending | reviewed | resolved | dismissed.
#[global] Instance eq_dec : EqDecision t.
Proof. solve_decision. Defined.
End ReportStatus.

Module ModerationStatus.
Inductive t := approved | pending | flagged | removed.
#[global] Instance eq_dec : EqDecision t.
Proof. solve_decision. Defined.
End ModerationStatus.

(** An entry of the [reports] array; a subdocument has an [_id] of its
    own. *)
Module Report.
Record t := {
  _id : ObjectId;
  reportedBy : ObjectId;
  feedback : string;
  reportedAt : Date;
  status : ReportStatus.t
}.

Definition set_status (x : ReportStatus.t) (r : t) : t :=
  {| _id := _id r; reportedBy := reportedBy r; feedback := feedback r;
     reportedAt := reportedAt r; status := x |}.
End Report.

Record Comment := {
  _id : ObjectId;
  post : ObjectId;
  postTitle : string;
  author : ObjectId;
  authorName : string;
  authorEmail : string;
  content : string;
  isActive : bool;
  reports : list Report.t;
  isReported : bool;
  moderationStatus : ModerationStatus.t
}.

Definition set_content (x : string) (c : Comment) : Comment :=
  {| _id := _id c; post := post c; postTitle := postTitle c;
     author := author c; authorName := authorName c;
     authorEmail := authorEmail c; content := x; isActive := isActive c;
     reports := reports c; isReported := isReported c;
     moderationStatus := moderationStatus c |}.

Definition set_isActive (x : bool) (c : Comment) : Comment :=
  {| _id := _id c; post := post c; postTitle := postTitle c;
     author := author c; authorName := authorName c;
     authorEmail := authorEmail c; content := content c; isActive := x;
     reports := reports c; isReported := isReported c;
     moderationStatus := moderationStatus c |}.

Definition set_reports (x : list Report.t) (c : Comment) : Comment :=
  {| _id := _id c; post := post c; postTitle := postTitle c;
     author := author c; authorName := authorName c;
     authorEmail := authorEmail c; content := content c;
     isActive := isActive c; reports := x; isReported := isReported c;
     moderationStatus := moderationStatus c |}.

Definition set_isReported (x : bool) (c : Comment) : Comment :=
  {| _id := _id c; post := post c; postTitle := postTitle c;
     author := author c; authorName := authorName c;
     authorEmail := authorEmail c; content := content c;
     isActive := isActive c; reports := reports c; isReported := x;
     moderationStatus := moderationStatus c |}.

Definition set_moderationStatus (x : ModerationStatus.t) (c : Comment)
    : Comment :=
  {| _id := _id c; post := post c; postTitle := postTitle c;
     author := author c; authorName := authorName c;
     authorEmail := authorEmail c; content := content c;
     isActive := isActive c; reports := reports c;
     isReported := isReported c; moderationStatus := x |}.

(** The [enum] of [reports.feedback]. *)
Definition feedbackEnum : list string :=
  ["Inappropriate content"; "Spam or promotional content";
   "Harassment or bullying"; "False information"; "Off-topic discussion"].

Definition validFeedback (s : string) : bool := bool_decide (s ∈ feedbackEnum).

(** [content]: required, and [maxlength] 1000, which the library tests as
    [value.length <= 1000]. *)
Definition validContent (s : string) : bool :=
  negb (String.eqb s "") && (jsLength s <=? 1000)%nat.

(** [commentSchema.pre('save')] *)
Definition preSave (this : Comment) : Comment :=
  set_isReported (0 <? length (reports this))%nat this.

(** [this.save()] after the caller wrote a value that is [valid] for its
    path (a document read from the store satisfies the schema already,
    so only what was just written can fail its validator): the promise
    rejects and the hook does not run, or the hook runs and the document
    is written. *)
Definition save (valid : bool) (path : string) (this : Comment)
    : Comment * option Error :=
  if valid then (preSave this, None)
  else (this, Some (ValidationError path)).

(** [Comment.create({post, postTitle, content, author, authorName,
    authorEmail})] as createComment calls it. *)
Definition create (id post' : ObjectId) (postTitle' content' : string)
    (author' : ObjectId) (authorName' authorEmail' : string)
    : Comment * option Error :=
  save (validContent content') "content"
    {| _id := id; post := post'; postTitle := postTitle';
       author := author'; authorName := authorName';
       authorEmail := authorEmail'; content := content';
       isActive := true; reports := []; isReported := false;
       moderationStatus := ModerationStatus.approved |}.

Definition duplicateReportMessage : string :=
  "You have already reported this comment".

(** [commentSchema.methods.addReport]; [rid] is the [_id] the new
    subdocument is given. The [throw] comes before any assignment. *)
Definition addReport (this : Comment) (userId : ObjectId)
    (feedback' : string) (rid : ObjectId) (now : Date)
    : Comment * option Error :=
  let existingReport :=
    find (λ report, Report.reportedBy report = userId) (reports this) in
  match existingReport with
  | Some _ => (this, Some (JsError duplicateReportMessage))
  | None =>
      let this1 :=
        set_reports (reports this ++
                     [{| Report._id := rid; Report.reportedBy := userId;
                         Report.feedback := feedback';
                         Report.reportedAt := now;
                         Report.status := ReportStatus.pending |}]) this in
      let this2 := set_isReported true this1 in
      save (validFeedback feedback') "reports.feedback" this2
  end.

(** [report.status = status] on the subdocument [this.reports.id(reportId)]
    finds, the first one with that [_id]. *)
Fixpoint setStatusById (reportId : ObjectId) (status' : ReportStatus.t)
    (rs : list Report.t) : option (list Report.t) :=
  match rs with
  | [] => None
  | r :: rs' =>
      if bool_decide (Report._id r = reportId)
      then Some (Report.set_status status' r :: rs')
      else cons r <$> setStatusById reportId status' rs'
  end.

(** [commentSchema.methods.updateReportStatus] *)
Definition updateReportStatus (this : Comment) (reportId : ObjectId)
    (status' : ReportStatus.t) : Comment * option Error :=
  match setStatusById reportId status' (reports this) with
  | None => (this, Some (JsError "Report not found"))
  | Some rs => save true "reports.status" (set_reports rs this)
  end.

(** [commentSchema.methods.moderate]; the method does not use its
    [moderatorId] argument. *)
Definition moderate (this : Comment) (status' : ModerationStatus.t)
    (moderatorId : ObjectId) : Comment * option Error :=
  let this1 := set_moderationStatus status' this in
  let this2 :=
    if bool_decide (status' = ModerationStatus.removed)
    then set_isActive false this1
    else this1 in
  save true "moderationStatus" this2.

(** The virtual [pendingReportsCount]. *)
Definition pendingReportsCount (this : Comment) : nat :=
  length (filter (λ report, Report.status report = ReportStatus.pending)
                 (reports this)).

End CommentModel.

(** ** models/User.js *)
Module UserModel.

Module Role.
Inductive t := user | admin.
#[global] Instance eq_dec : EqDecision t.
Proof. solve_decision. Defined.
End Role.

Inductive Membership := bronze | gold.
Inductive Provider := google | facebook | github.

#[global] Instance Membership_eq_dec : EqDecision Membership.
Proof. solve_decision. Defined.
#[global] Instance Provider_eq_dec : EqDecision Provider.
Proof. solve_decision. Defined.

(** An entry of [badges]: its [type] path and the time it was earned. *)
Record Badge := {
  type : Membership;
  earnedAt : Date
}.

Record SocialAuth := {
  isEnabled : bool;
  provider : option Provider;
  providerId : option string
}.

Record User := {
  _id : ObjectId;
  name : string;
  email : string;
  password : option string;
  profileImage : string;
  role : Role.t;
  membership : Membership;
  badges : list Badge;
  aboutMe : string;
  socialAuth : SocialAuth;
  membershipExpiry : option Date;
  isActive : bool;
  lastLogin : Date
}.

Definition set_membership (x : Membership) (u : User) : User :=
  {| _id := _id u; name := name u; email := email u;
     password := password u; profileImage := profileImage u;
     role := role u; membership := x; badges := badges u;
     aboutMe := aboutMe u; socialAuth := socialAuth u;
     membershipExpiry := membershipExpiry u; isActive := isActive u;
     lastLogin := lastLogin u |}.

Definition set_membershipExpiry (x : option Date) (u : User) : User :=
  {| _id := _id u; name := name u; email := email u;
     password := password u; profileImage := profileImage u;
     role := role u; membership := membership u; badges := badges u;
     aboutMe := aboutMe u; socialAuth := socialAuth u;
     membershipExpiry := x; isActive := isActive u;
     lastLogin := lastLogin u |}.

Definition set_badges (x : list Badge) (u : User) : User :=
  {| _id := _id u; name := name u; email := email u;
     password := password u; profileImage := profileImage u;
     role := role u; membership := membership u; badges := x;
     aboutMe := aboutMe u; socialAuth := socialAuth u;
     membershipExpiry := membershipExpiry u; isActive := isActive u;
     lastLogin := lastLogin u |}.

Definition set_password (x : option string) (u : User) : User :=
  {| _id := _id u; name := name u; email := email u; password := x;
     profileImage := profileImage u; role := role u;
     membership := membership u; badges := badges u; aboutMe := aboutMe u;
     socialAuth := socialAuth u; membershipExpiry := membershipExpiry u;
     isActive := isActive u; lastLogin := lastLogin u |}.

(** [userSchema.methods.toJSON], which [res.json] calls on a document
    it is given: the copy has no [password]. (A query does not load the
    password either, its path being [select: false].) *)
Definition toJSON (this : User) : User := set_password None this.

(** [userSchema.pre('save')] for a new document: the bronze badge. (The
    other hook hashes a changed password and touches nothing else.) *)
Definition preSaveNew (this : User) (now : Date) : User :=
  set_badges (badges this ++ [{| type := bronze; earnedAt := now |}]) this.

(** [User.create({name, email, password, profileImage, lastLogin})] as
    register calls it; [hash] is the stored form of the password. *)
Definition create (id : ObjectId) (name' email' hash profileImage' : string)
    (lastLogin' now : Date) : User :=
  preSaveNew
    {| _id := id; name := name'; email := email'; password := Some hash;
       profileImage := profileImage'; role := Role.user;
       membership := bronze;
       badges := []; aboutMe := "";
       socialAuth := {| isEnabled := false; provider := None;
                        providerId := None |};
       membershipExpiry := None; isActive := true;
       lastLogin := lastLogin' |} now.

(** [userSchema.methods.hasMembership]; [now] is [new Date()]. A Date
    object is truthy, so [!this.membershipExpiry] holds for [null] only. *)
Definition hasMembership (this : User) (now : Date) : bool :=
  bool_decide (membership this = gold) &&
  match membershipExpiry this with
  | None => true
  | Some expiry => bool_decide (now < expiry)
  end.

(** [365 * 24 * 60 * 60 * 1000] *)
Definition oneYear : Z := 365 * 24 * 60 * 60 * 1000.

(** [this.badges.some(badge => badge.type === 'gold')] *)
Definition hasGoldBadge (bs : list Badge) : bool :=
  bool_decide (Exists (λ badge, type badge = gold) bs).

(** [userSchema.methods.upgradeToGold]; [dateNow] is [Date.now()] and
    [tEarned] the later [new Date()]. The method does not save. *)
Definition upgradeToGold (this : User) (dateNow tEarned : Date) : User :=
  let this1 := set_membership gold this in
  let this2 := set_membershipExpiry (Some (dateNow + oneYear)) this1 in
  if hasGoldBadge (badges this2)
  then this2
  else set_badges (badges this2 ++
                   [{| type := gold; earnedAt := tEarned |}]) this2.

End UserModel.

(** ** The document store and what a request handler hands back *)

(** The three collections, each keyed by [_id]: [findById id] is the
    lookup of [id], and [save()] of the document it returned writes under
    the same key. *)
Record DB := {
  posts : gmap ObjectId PostModel.Post;
  comments : gmap ObjectId CommentModel.Comment;
  users : gmap ObjectId UserModel.User
}.

Definition set_posts (x : gmap ObjectId PostModel.Post) (db : DB) : DB :=
  {| posts := x; comments := comments db; users := users db |}.

Definition set_comments (x : gmap ObjectId CommentModel.Comment) (db : DB)
    : DB :=
  {| posts := posts db; comments := x; users := users db |}.

Definition set_users (x : gmap ObjectId UserModel.User) (db : DB) : DB :=
  {| posts := posts db; comments := comments db; users := x |}.

(** [res.status(status).json({success, message, data})] *)
Record Response (D : Type) := {
  status : nat;
  success : bool;
  message : option string;
  data : option D
}.
Arguments status {D} _.
Arguments success {D} _.
Arguments message {D} _.
Arguments data {D} _.

(** A handler wrapped in [asyncHandler] answers, or an error escapes it
    and goes to [next]. *)
Inductive Outcome (D : Type) :=
| Responded (r : Response D)
| Forwarded (e : Error).
Arguments Responded {D} r.
Arguments Forwarded {D} e.

Definition failure {D : Type} (code : nat) (msg : string) : Response D :=
  {| status := code; success := false; message := Some msg; data := None |}.

(** A string of the request body is truthy when present and not empty. *)
Definition truthy (s : option string) : option string :=
  match s with
  | Some x => if String.eqb x "" then None else Some x
  | None => None
  end.

(** ** controllers/postController.js *)
Module PostController.
Import PostModel.

(** [['up', 'down'].includes(voteType)] on the body's [voteType]. *)
Definition parseVoteType (voteType' : option string) : option VoteType :=
  match voteType' with
  | Some s =>
      if String.eqb s "up" then Some up
      else if String.eqb s "down" then Some down
      else None
  | None => None
  end.

Record VoteData := {
  data_upVote : Z;
  data_downVote : Z;
  data_voteDifference : Z;
  data_userVote : option VoteType
}.

(** The virtual [voteDifference]. *)
Definition voteDifference (p : Post) : Z := upVote p - downVote p.

(** [votePost]; [user] is [req.user], [id] is [req.params.id]. *)
Definition votePost (db : DB) (id : ObjectId) (voteType' : option string)
    (user : UserModel.User) (tVoted tActivity tSave : Date)
    : DB * Response VoteData :=
  match parseVoteType voteType' with
  | None => (db, failure 400 "Please provide valid vote type (up or down)")
  | Some vt =>
      match posts db !! id with
      | None => (db, failure 404 "Post not found")
      | Some post =>
          if bool_decide (visibility post = private ∧
                          author post ≠ UserModel._id user)
          then (db, failure 403 "Cannot vote on private post")
          else
            let existingVote := getUserVote post (UserModel._id user) in
            if bool_decide (existingVote = Some vt)
            then
              let post' := removeVote post (UserModel._id user) tSave in
              (set_posts (<[id := post']> (posts db)) db,
               {| status := 200; success := true;
                  message := Some ((match vt with
                                    | up => "Upvote"
                                    | down => "Downvote"
                                    end) +:+ " removed");
                  data := Some {| data_upVote := upVote post';
                                  data_downVote := downVote post';
                                  data_voteDifference := voteDifference post';
                                  data_userVote := None |} |})
            else
              let post' :=
                vote post (UserModel._id user) vt tVoted tActivity tSave in
              (set_posts (<[id := post']> (posts db)) db,
               {| status := 200; success := true;
                  message := Some ((match vt with
                                    | up => "Upvoted"
                                    | down => "Downvoted"
                                    end) +:+ " successfully");
                  data := Some {| data_upVote := upVote post';
                                  data_downVote := downVote post';
                                  data_voteDifference := voteDifference post';
                                  data_userVote := Some vt |} |})
      end
  end.

(** The assignments of [updatePost] to the document it loaded, then
    [post.save()]; an absent or falsy body field is [None], and
    [normalizedTags] is the lower-cased, trimmed tag list. *)
Definition updateFields (title' description' : option string)
    (visibility' : option Visibility) (normalizedTags : option (list string))
    (post : Post) (tSave : Date) : Post :=
  let post1 := from_option (λ x, set_title x post) post (truthy title') in
  let post2 :=
    from_option (λ x, set_description x post1) post1 (truthy description') in
  let post3 := from_option (λ x, set_visibility x post2) post2 visibility' in
  let post4 :=
    match normalizedTags with
    | Some (t :: ts) => set_tags (t :: ts) post3
    | _ => post3
    end in
  save post post4 tSave.

(** The soft delete of [deletePost]: [post.isActive = false], then
    [post.save()]. *)
Definition softDelete (post : Post) (tSave : Date) : Post :=
  save post (set_isActive false post) tSave.

End PostController.

(** ** controllers/authController.js *)
Module AuthController.
Import UserModel.

Inductive PostLimit := unlimited | limited (n : nat).

Module CanPostData.
Record t := {
  canPost : bool;
  currentPosts : nat;
  postLimit : PostLimit;
  membership : Membership;
  reason : option string
}.
End CanPostData.

(** [Post.countDocuments({author, isActive: true})] *)
Definition countActivePosts (db : DB) (author' : ObjectId) : nat :=
  size (filter (λ kp : ObjectId * PostModel.Post,
                  PostModel.author kp.2 = author' ∧
                  PostModel.isActive kp.2 = true) (posts db)).

(** [canPost]; [user] is [req.user] and [now] the [new Date()] that
    [hasMembership] reads. The handler only reads the store. *)
Definition canPost (db : DB) (user : User) (now : Date)
    : DB * Response CanPostData.t :=
  let postCount := countActivePosts db (_id user) in
  let hasGoldMembership := hasMembership user now in
  let canCreatePost := hasGoldMembership || (postCount <? 5)%nat in
  (db,
   {| status := 200; success := true; message := None;
      data := Some
        {| CanPostData.canPost := canCreatePost;
           CanPostData.currentPosts := postCount;
           CanPostData.postLimit :=
             if hasGoldMembership then unlimited else limited 5;
           CanPostData.membership := membership user;
           CanPostData.reason :=
             if negb canCreatePost
             then Some "Post limit reached. Upgrade to Gold membership for unlimited posts."
             else None |} |}).

End AuthController.

(** ** controllers/userController.js *)
Module UserController.
Import UserModel.

(** [upgradeMembership]; [user.save()] after [upgradeToGold] runs no
    hook that applies (the password is unchanged, the document is not
    new) and leaves the stored password as it is. The answer carries the
    document as [toJSON] gives it. Reading [membership] of a missing
    document throws. *)
Definition upgradeMembership (db : DB) (reqUser : User)
    (dateNow tEarned : Date) : DB * Outcome User :=
  match users db !! _id reqUser with
  | None =>
      (db, Forwarded (JsError "Cannot read properties of null (reading 'membership')"))
  | Some user =>
      if bool_decide (membership user = gold)
      then (db, Responded (failure 400 "User already has gold membership"))
      else
        let user' := upgradeToGold user dateNow tEarned in
        (set_users (<[_id reqUser := user']> (users db)) db,
         Responded {| status := 200; success := true;
                      message := Some "Successfully upgraded to Gold membership!";
                      data := Some (toJSON user') |})
  end.

End UserController.

(** ** controllers/commentController.js *)
Module CommentController.
Import CommentModel.

(** [error.message === m]; a validation failure carries the storage
    library's message, which is none of the messages compared with. *)
Definition hasMessage (e : Error) (m : string) : bool :=
  match e with
  | JsError m' => String.eqb m' m
  | ValidationError _ => false
  end.

(** [reportComment]; [user] is [req.user], [rid] the [_id] given to the
    new report. *)
Definition reportComment (db : DB) (id : ObjectId)
    (feedback' : option string) (user : UserModel.User)
    (rid : ObjectId) (now : Date) : DB * Outcome unit :=
  match truthy feedback' with
  | None =>
      (db, Responded (failure 400 "Please provide feedback for the report"))
  | Some fb =>
      match comments db !! id with
      | None => (db, Responded (failure 404 "Comment not found"))
      | Some comment =>
          if negb (isActive comment)
          then (db, Responded
                      (failure 400 "Cannot report an inactive comment"))
          else
            match addReport comment (UserModel._id user) fb rid now with
            | (comment', None) =>
                (set_comments (<[id := comment']> (comments db)) db,
                 Responded {| status := 200; success := true;
                              message := Some "Comment reported successfully";
                              data := None |})
            | (_, Some error) =>
                if hasMessage error duplicateReportMessage
                then (db, Responded (failure 400 duplicateReportMessage))
                else (db, Forwarded error)
            end
      end
  end.

(** [updateComment] on the document it loaded: [comment.content =
    content], then [comment.save()]. *)
Definition updateContent (content' : string) (comment : Comment)
    : Comment * option Error :=
  save (validContent content') "content" (set_content content' comment).

(** The soft delete of [deleteComment]. *)
Definition softDelete (comment : Comment) : Comment * option Error :=
  save true "isActive" (set_isActive false comment).

End CommentController.

(** ** controllers/adminController.js *)
Module AdminController.
Import CommentModel.

Inductive Action := approve | flag | remove.

(** [['approve', 'flag', 'remove'].includes(action)] *)
Definition parseAction (action : option string) : option Action :=
  match action with
  | Some s =>
      if String.eqb s "approve" then Some approve
      else if String.eqb s "flag" then Some flag
      else if String.eqb s "remove" then Some remove
      else None
  | None => None
  end.

(** The [switch (action)] that both handlers carry. *)
Definition moderationStatusFor (action : Action) : ModerationStatus.t :=
  match action with
  | approve => ModerationStatus.approved
  | flag => ModerationStatus.flagged
  | remove => ModerationStatus.removed
  end.

Definition reportStatusFor (action : Action) : ReportStatus.t :=
  match action with
  | approve => ReportStatus.dismissed
  | flag => ReportStatus.reviewed
  | remove => ReportStatus.resolved
  end.

(** [comment.reports.forEach(report => { if (report.status ===
    'pending') report.status = reportStatus })] *)
Definition sweepPending (reportStatus : ReportStatus.t)
    (rs : list Report.t) : list Report.t :=
  (λ report,
     if bool_decide (Report.status report = ReportStatus.pending)
     then Report.set_status reportStatus report
     else report) <$> rs.

(** The branch of [handleReportedComment] without a [reportId]: the
    sweep, then [comment.save()]. *)
Definition updatePendingReports (reportStatus : ReportStatus.t)
    (comment : Comment) : Comment * option Error :=
  save true "reports.status"
    (set_reports (sweepPending reportStatus (reports comment)) comment).

(** [handleReportedComment]; [reportId] is [None] when the body has
    none. The moderation is saved before the report is looked up. *)
Definition handleReportedComment (db : DB) (id : ObjectId)
    (action : option string) (reportId : option ObjectId)
    (user : UserModel.User) : DB * Outcome Comment :=
  match parseAction action with
  | None =>
      (db, Responded
             (failure 400 "Please provide valid action (approve, flag, remove)"))
  | Some a =>
      match comments db !! id with
      | None => (db, Responded (failure 404 "Comment not found"))
      | Some comment =>
          let moderationStatus' := moderationStatusFor a in
          let reportStatus := reportStatusFor a in
          match moderate comment moderationStatus' (UserModel._id user) with
          | (_, Some error) => (db, Forwarded error)
          | (comment1, None) =>
              let db1 := set_comments (<[id := comment1]> (comments db)) db in
              let saved :=
                match reportId with
                | Some rid => updateReportStatus comment1 rid reportStatus
                | None => updatePendingReports reportStatus comment1
                end in
              match saved with
              | (_, Some error) => (db1, Forwarded error)
              | (comment2, None) =>
                  (set_comments (<[id := comment2]> (comments db1)) db1,
                   Responded
                     {| status := 200; success := true;
                        message :=
                          Some ("Comment " +:+
                                (match a with
                                 | approve => "approve"
                                 | flag => "flag"
                                 | remove => "remove"
                                 end) +:+ "ed successfully");
                        data := Some comment2 |})
              end
          end
      end
  end.

(** The update document of [Comment.updateMany]: [moderationStatus] and
    ['reports.$[].status'], the status of every element of [reports].
    An update query runs neither [moderate] nor the save hook. *)
Definition bulkUpdate (moderationStatus' : ModerationStatus.t)
    (reportStatus : ReportStatus.t) (c : Comment) : Comment :=
  set_reports (Report.set_status reportStatus <$> reports c)
    (set_moderationStatus moderationStatus' c).

Record BulkData := {
  data_action : Action;
  processedCount : nat;
  totalRequested : nat
}.

(** [bulkActionReportedComments]; [commentIds] is [None] when the body
    has no array there. [modifiedCount] is the number of documents the
    filter matched: with the schema's [timestamps] every matched
    document is rewritten. *)
Definition bulkActionReportedComments (db : DB)
    (commentIds : option (list ObjectId)) (action : option string)
    : DB * Response BulkData :=
  match commentIds with
  | None | Some [] =>
      (db, failure 400 "Please provide an array of comment IDs")
  | Some ids =>
      match parseAction action with
      | None =>
          (db, failure 400 "Please provide valid action (approve, flag, remove)")
      | Some a =>
          let moderationStatus' := moderationStatusFor a in
          let reportStatus := reportStatusFor a in
          let modifiedCount :=
            size (filter (λ kc : ObjectId * Comment, kc.1 ∈ ids)
                         (comments db)) in
          (set_comments
             (map_imap (λ k c,
                          Some (if bool_decide (k ∈ ids)
                                then bulkUpdate moderationStatus' reportStatus c
                                else c)) (comments db)) db,
           {| status := 200; success := true;
              message :=
                Some ("Bulk action completed. " +:+ pretty modifiedCount
                      +:+ " comments processed.");
              data := Some {| data_action := a;
                              processedCount := modifiedCount;
                              totalRequested := length ids |} |})
      end
  end.

End AdminController.

(** ** Statements about votes *)
Module VoteSpec.
Import PostModel.

(** A call of one of the two voting methods, with the clock reads it
    makes. *)
Inductive Op :=
| Vote (userId' : ObjectId) (voteType' : VoteType)
       (tVoted tActivity tSave : Date)
| RemoveVote (userId' : ObjectId) (tSave : Date).

Definition applyOp (p : Post) (op : Op) : Post :=
  match op with
  | Vote u t tVoted tActivity tSave => vote p u t tVoted tActivity tSave
  | RemoveVote u tSave => removeVote p u tSave
  end.

Definition applyOps (p : Post) (ops : list Op) : Post := foldl applyOp p ops.

(** The number of different users in the voter list. *)
Definition distinctVoters (p : Post) : nat :=
  length (remove_dups (userId <$> voters p)).

(** The two counters are the counts over the voter list. *)
Definition countsAgree (p : Post) : Prop :=
  upVote p = countVotes up (voters p) ∧
  downVote p = countVotes down (voters p).

(** No user has two entries in the voter list. *)
Definition votesOnce (p : Post) : Prop := NoDup (userId <$> voters p).

Definition consistent (p : Post) : Prop :=
  countsAgree p ∧ votesOnce p ∧
  upVote p + downVote p = Z.of_nat (distinctVoters p).

(** The Post documents the program can hold: made by [create], then
    changed by the model's methods and by the controllers' assignments. *)
Inductive reachable : Post → Prop :=
| reach_create id title' description' tags' author' authorName'
    authorEmail' authorImage' now :
    reachable (create id title' description' tags' author' authorName'
                 authorEmail' authorImage' now)
| reach_vote p u t tVoted tActivity tSave :
    reachable p → reachable (vote p u t tVoted tActivity tSave)
| reach_removeVote p u tSave :
    reachable p → reachable (removeVote p u tSave)
| reach_incrementViews p tSave :
    reachable p → reachable (incrementViews p tSave)
| reach_updateFields p title' description' visibility' tags' tSave :
    reachable p →
    reachable (PostController.updateFields title' description' visibility'
                 tags' p tSave)
| reach_softDelete p tSave :
    reachable p → reachable (PostController.softDelete p tSave).

(** Two successive requests of the same user with the same body, and the
    post the store holds under [id] after them. *)
Definition voteTwice (db : DB) (id : ObjectId) (voteType' : option string)
    (user : UserModel.User) (t1 t2 t3 t4 t5 t6 : Date) : option Post :=
  let db1 := (PostController.votePost db id voteType' user t1 t2 t3).1 in
  let db2 := (PostController.votePost db1 id voteType' user t4 t5 t6).1 in
  posts db2 !! id.

End VoteSpec.

(** ** Statements about reports and moderation *)
Module CommentSpec.
Import CommentModel.

(** A comment as [createComment] stores it. *)
Definition created (c : Comment) : Prop :=
  ∃ id post' postTitle' content' author' authorName' authorEmail',
    create id post' postTitle' content' author' authorName' authorEmail'
      = (c, None).

(** One write to a stored comment: a method or a controller whose save
    went through, or the bulk update. *)
Inductive step : Comment → Comment → Prop :=
| step_addReport c userId feedback' rid now c' :
    addReport c userId feedback' rid now = (c', None) → step c c'
| step_updateReportStatus c reportId status' c' :
    updateReportStatus c reportId status' = (c', None) → step c c'
| step_moderate c status' moderatorId c' :
    moderate c status' moderatorId = (c', None) → step c c'
| step_updatePendingReports c reportStatus c' :
    AdminController.updatePendingReports reportStatus c = (c', None) →
    step c c'
| step_updateContent c content' c' :
    CommentController.updateContent content' c = (c', None) → step c c'
| step_softDelete c c' :
    CommentController.softDelete c = (c', None) → step c c'
| step_bulkUpdate c moderationStatus' reportStatus :
    step c (AdminController.bulkUpdate moderationStatus' reportStatus c).

(** The Comment documents the store can hold. *)
Definition reachable (c : Comment) : Prop :=
  ∃ c0, created c0 ∧ rtc step c0 c.

(** The flag says whether there is a report. *)
Definition flagged (c : Comment) : Prop :=
  isReported c = true ↔ reports c ≠ [].

(** The users who reported the comment, in order. *)
Definition reporters (c : Comment) : list ObjectId :=
  Report.reportedBy <$> reports c.

End CommentSpec.

(** ** Statements about membership *)
Module MembershipSpec.
Import UserModel.

Definition goldBadgeCount (u : User) : nat :=
  length (filter (λ badge, type badge = gold) (badges u)).

(** Successive calls of [upgradeToGold], each with its two clock reads. *)
Definition upgrades (u : User) (calls : list (Date * Date)) : User :=
  foldl (λ u call, upgradeToGold u call.1 call.2) u calls.

End MembershipSpec.

(** ** middleware/auth.js *)
Module AuthMiddleware.
Import UserModel.

(** A middleware calls [next()], with what it attached to the request,
    or answers itself. *)
Inductive Gate (A D : Type) :=
| Next (a : A)
| Answered (r : Response D).
Arguments Next {A D} a.
Arguments Answered {A D} r.

(** What the first half of [protect] makes of the request: no token in
    the header or the cookie, a token [jwt.verify] accepts with the id it
    carries, or a token on which it throws an error of some name. *)
Inductive Token :=
| NoToken
| Verified (id : ObjectId)
| Refused (errorName : string).

(** [protect]: [req.user] is the stored user without its password. *)
Definition protect (db : DB) (token : Token) : Gate User unit :=
  match token with
  | NoToken => Answered (failure 401 "Not authorized to access this route")
  | Refused errorName =>
      if String.eqb errorName "JsonWebTokenError"
      then Answered (failure 401 "Invalid token")
      else if String.eqb errorName "TokenExpiredError"
      then Answered (failure 401 "Token expired")
      else Answered (failure 401 "Not authorized to access this route")
  | Verified id =>
      match users db !! id with
      | None => Answered (failure 401 "No user found with this token")
      | Some user =>
          if negb (isActive user)
          then Answered (failure 401 "User account is deactivated")
          else Next (set_password None user)
      end
  end.

(** [admin]; [reqUser] is [None] when no middleware set [req.user]. *)
Definition admin (reqUser : option User) : Gate unit unit :=
  match reqUser with
  | Some user =>
      if bool_decide (role user = Role.admin) then Next tt
      else Answered (failure 403 "Admin access required")
  | None => Answered (failure 403 "Admin access required")
  end.

(** [requireMembership]; [now] is the clock read of [hasMembership]. *)
Definition requireMembership (reqUser : option User) (now : Date)
    : Gate unit unit :=
  match reqUser with
  | Some user =>
      if hasMembership user now then Next tt
      else Answered (failure 403 "Gold membership required for this action")
  | None => Answered (failure 403 "Gold membership required for this action")
  end.

(** [checkPostOwnership]: [req.post] is the post found. *)
Definition checkPostOwnership (db : DB) (id : ObjectId) (user : User)
    : Gate PostModel.Post unit :=
  match posts db !! id with
  | None => Answered (failure 404 "Post not found")
  | Some post =>
      if bool_decide (role user = Role.admin ∨ PostModel.author post = _id user)
      then Next post
      else Answered (failure 403 "Not authorized to access this post")
  end.

(** [checkCommentOwnership]: [req.comment] is the comment found. *)
Definition checkCommentOwnership (db : DB) (id : ObjectId) (user : User)
    : Gate CommentModel.Comment unit :=
  match comments db !! id with
  | None => Answered (failure 404 "Comment not found")
  | Some comment =>
      if bool_decide (role user = Role.admin ∨
                      CommentModel.author comment = _id user)
      then Next comment
      else Answered (failure 403 "Not authorized to access this comment")
  end.

End AuthMiddleware.

(** ** controllers/postController.js: reading and deleting a post *)
Module PostHandlers.
Import PostModel.

(** The populated [author] of [getPost]: [name profileImage email]. *)
Record AuthorView := {
  author_id : ObjectId;
  author_name : string;
  author_profileImage : string;
  author_email : string
}.

(** [post.toObject()] with its virtuals, [userVote] added and [voters]
    deleted. *)
Record PostData := {
  data_id : ObjectId;
  data_title : string;
  data_description : string;
  data_author : option AuthorView;
  data_authorImage : string;
  data_authorName : string;
  data_authorEmail : string;
  data_tags : list string;
  data_upVote : Z;
  data_downVote : Z;
  data_visibility : Visibility;
  data_isActive : bool;
  data_views : Z;
  data_lastActivity : Date;
  data_commentsCount : nat;
  data_voteDifference : Z;
  data_totalVotes : Z;
  data_userVote : option VoteType
}.

(** The virtual [commentsCount]: the comments whose [post] is this one. *)
Definition commentsCount (db : DB) (id : ObjectId) : nat :=
  size (filter (λ kc : ObjectId * CommentModel.Comment,
                  CommentModel.post kc.2 = id) (comments db)).

(** [populate('author', 'name profileImage email')]; the document found
    under the id [author] is the one whose [_id] is that id. *)
Definition populateAuthor (db : DB) (post : Post) : option AuthorView :=
  (λ u, {| author_id := author post; author_name := UserModel.name u;
           author_profileImage := UserModel.profileImage u;
           author_email := UserModel.email u |}) <$> users db !! author post.

Definition toData (db : DB) (id : ObjectId) (post : Post)
    (userVote : option VoteType) : PostData :=
  {| data_id := _id post; data_title := title post;
     data_description := description post;
     data_author := populateAuthor db post;
     data_authorImage := authorImage post;
     data_authorName := authorName post;
     data_authorEmail := authorEmail post; data_tags := tags post;
     data_upVote := upVote post; data_downVote := downVote post;
     data_visibility := visibility post; data_isActive := isActive post;
     data_views := views post; data_lastActivity := lastActivity post;
     data_commentsCount := commentsCount db id;
     data_voteDifference := upVote post - downVote post;
     data_totalVotes := upVote post + downVote post;
     data_userVote := userVote |}.

(** What [getPost] does once the post may be shown. *)
Definition showPost (db : DB) (id : ObjectId) (post : Post)
    (reqUser : option UserModel.User) (tSave : Date)
    : DB * Outcome PostData :=
  let post' := incrementViews post tSave in
  let userVote :=
    match reqUser with
    | Some user => getUserVote post' (UserModel._id user)
    | None => None
    end in
  (set_posts (<[id := post']> (posts db)) db,
   Responded {| status := 200; success := true; message := None;
                data := Some (toData db id post' userVote) |}).

(** [getPost]; [reqUser] is what [optionalAuth] left in [req.user]. For a
    private post and a signed-in user the test reads [post.author._id],
    which throws when the author's document is gone. *)
Definition getPost (db : DB) (id : ObjectId)
    (reqUser : option UserModel.User) (tSave : Date)
    : DB * Outcome PostData :=
  match posts db !! id with
  | None => (db, Responded (failure 404 "Post not found"))
  | Some post =>
      if bool_decide (visibility post = private)
      then
        match reqUser with
        | None => (db, Responded (failure 403 "Post is private"))
        | Some user =>
            match populateAuthor db post with
            | None =>
                (db, Forwarded
                       (JsError "Cannot read properties of null (reading '_id')"))
            | Some authorDoc =>
                if bool_decide (author_id authorDoc ≠ UserModel._id user)
                then (db, Responded (failure 403 "Post is private"))
                else showPost db id post reqUser tSave
            end
        end
      else showPost db id post reqUser tSave
  end.

(** [deletePost] *)
Definition deletePost (db : DB) (id : ObjectId) (user : UserModel.User)
    (tSave : Date) : DB * Response unit :=
  match posts db !! id with
  | None => (db, failure 404 "Post not found")
  | Some post =>
      if bool_decide (author post ≠ UserModel._id user ∧
                      UserModel.role user ≠ UserModel.Role.admin)
      then (db, failure 403 "Not authorized to delete this post")
      else
        (set_posts (<[id := PostController.softDelete post tSave]> (posts db))
           db,
         {| status := 200; success := true;
            message := Some "Post deleted successfully"; data := None |})
  end.

(** The route [DELETE /api/posts/:id]: [protect], [checkPostOwnership],
    [deletePost]. *)
Definition deletePostRoute (db : DB) (token : AuthMiddleware.Token)
    (id : ObjectId) (tSave : Date) : DB * Response unit :=
  match AuthMiddleware.protect db token with
  | AuthMiddleware.Answered r => (db, r)
  | AuthMiddleware.Next user =>
      match AuthMiddleware.checkPostOwnership db id user with
      | AuthMiddleware.Answered r => (db, r)
      | AuthMiddleware.Next _ => deletePost db id user tSave
      end
  end.

End PostHandlers.

(** ** controllers/commentController.js: writing, changing and deleting a
    comment *)
Module CommentHandlers.
Import CommentModel.

(** [createComment]; [newId] is the [_id] the store gives the new
    document, one no comment has. *)
Definition createComment (db : DB) (postId : option ObjectId)
    (content' : option string) (user : UserModel.User) (newId : ObjectId)
    : DB * Outcome Comment :=
  match postId, truthy content' with
  | Some pid, Some text =>
      match posts db !! pid with
      | None => (db, Responded (failure 404 "Post not found"))
      | Some post' =>
          if bool_decide (PostModel.visibility post' = PostModel.private ∧
                          PostModel.author post' ≠ UserModel._id user)
          then (db, Responded (failure 403 "Cannot comment on private post"))
          else
            match create newId pid (PostModel.title post') text
                    (UserModel._id user) (UserModel.name user)
                    (UserModel.email user) with
            | (comment, None) =>
                (set_comments (<[newId := comment]> (comments db)) db,
                 Responded {| status := 201; success := true;
                              message := Some "Comment created successfully";
                              data := Some comment |})
            | (_, Some error) => (db, Forwarded error)
            end
      end
  | _, _ => (db, Responded (failure 400 "Please provide post ID and content"))
  end.

(** [updateComment] *)
Definition updateComment (db : DB) (id : ObjectId) (content' : option string)
    (user : UserModel.User) : DB * Outcome Comment :=
  match truthy content' with
  | None => (db, Responded (failure 400 "Please provide content"))
  | Some text =>
      match comments db !! id with
      | None => (db, Responded (failure 404 "Comment not found"))
      | Some comment =>
          if bool_decide (author comment ≠ UserModel._id user ∧
                          UserModel.role user ≠ UserModel.Role.admin)
          then (db, Responded
                      (failure 403 "Not authorized to update this comment"))
          else
            match CommentController.updateContent text comment with
            | (comment', None) =>
                (set_comments (<[id := comment']> (comments db)) db,
                 Responded {| status := 200; success := true;
                              message := Some "Comment updated successfully";
                              data := Some comment' |})
            | (_, Some error) => (db, Forwarded error)
            end
      end
  end.

(** [deleteComment] *)
Definition deleteComment (db : DB) (id : ObjectId) (user : UserModel.User)
    : DB * Outcome unit :=
  match comments db !! id with
  | None => (db, Responded (failure 404 "Comment not found"))
  | Some comment =>
      if bool_decide (author comment ≠ UserModel._id user ∧
                      UserModel.role user ≠ UserModel.Role.admin)
      then (db, Responded
                  (failure 403 "Not authorized to delete this comment"))
      else
        match CommentController.softDelete comment with
        | (comment', None) =>
            (set_comments (<[id := comment']> (comments db)) db,
             Responded {| status := 200; success := true;
                          message := Some "Comment deleted successfully";
                          data := None |})
        | (_, Some error) => (db, Forwarded error)
        end
  end.

End CommentHandlers.

(** ** controllers/userController.js and authController.js: roles and
    activation *)
Module UserAdmin.
Import UserModel.

Definition set_role (x : Role.t) (u : User) : User :=
  {| _id := _id u; name := name u; email := email u;
     password := password u; profileImage := profileImage u; role := x;
     membership := membership u; badges := badges u; aboutMe := aboutMe u;
     socialAuth := socialAuth u; membershipExpiry := membershipExpiry u;
     isActive := isActive u; lastLogin := lastLogin u |}.

Definition set_isActive (x : bool) (u : User) : User :=
  {| _id := _id u; name := name u; email := email u;
     password := password u; profileImage := profileImage u;
     role := role u; membership := membership u; badges := badges u;
     aboutMe := aboutMe u; socialAuth := socialAuth u;
     membershipExpiry := membershipExpiry u; isActive := x;
     lastLogin := lastLogin u |}.

(** [await user.save()] and the 200 answer with [data: user], which
    [res.json] takes through [toJSON]. *)
Definition stored (db : DB) (id : ObjectId) (user : User) (msg : string)
    : DB * Response User :=
  (set_users (<[id := user]> (users db)) db,
   {| status := 200; success := true; message := Some msg;
      data := Some (toJSON user) |}).

(** [makeAdmin]; [id] is [req.params.id]. *)
Definition makeAdmin (db : DB) (id : ObjectId) : DB * Response User :=
  match users db !! id with
  | None => (db, failure 404 "User not found")
  | Some user =>
      if bool_decide (role user = Role.admin)
      then (db, failure 400 "User is already an admin")
      else stored db id (set_role Role.admin user)
             "User promoted to admin successfully"
  end.

(** [removeAdmin]; the document found under [id] has that [_id], which
    is what is compared with [req.user._id]. *)
Definition removeAdmin (db : DB) (id : ObjectId) (reqUser : User)
    : DB * Response User :=
  match users db !! id with
  | None => (db, failure 404 "User not found")
  | Some user =>
      if bool_decide (role user ≠ Role.admin)
      then (db, failure 400 "User is not an admin")
      else if bool_decide (id = _id reqUser)
      then (db, failure 400 "Cannot remove admin role from yourself")
      else stored db id (set_role Role.user user)
             "Admin role removed successfully"
  end.

(** [deactivateUser] *)
Definition deactivateUser (db : DB) (id : ObjectId) (reqUser : User)
    : DB * Response User :=
  match users db !! id with
  | None => (db, failure 404 "User not found")
  | Some user =>
      if negb (isActive user)
      then (db, failure 400 "User is already deactivated")
      else if bool_decide (id = _id reqUser)
      then (db, failure 400 "Cannot deactivate yourself")
      else stored db id (set_isActive false user)
             "User deactivated successfully"
  end.

(** [reactivateUser] *)
Definition reactivateUser (db : DB) (id : ObjectId) : DB * Response User :=
  match users db !! id with
  | None => (db, failure 404 "User not found")
  | Some user =>
      if isActive user
      then (db, failure 400 "User is already active")
      else stored db id (set_isActive true user)
             "User reactivated successfully"
  end.

(** [deactivateAccount] of authController.js:
    [User.findByIdAndUpdate(req.user._id, { isActive: false })], which
    changes a document only if there is one. (The cookie the handler also
    sets on the answer is not part of [Response].) *)
Definition deactivateAccount (db : DB) (reqUser : User) : DB * Response unit :=
  (set_users (alter (set_isActive false) (_id reqUser) (users db)) db,
   {| status := 200; success := true;
      message := Some "Account deactivated successfully"; data := None |}).

End UserAdmin.

(** ** models/Tag.js *)
Module TagModel.

Record Tag := {
  _id : ObjectId;
  name : string;
  displayName : string;
  description : string;
  color : string;
  isActive : bool;
  createdBy : ObjectId;
  usageCount : Z
}.

Definition set_usageCount (x : Z) (t : Tag) : Tag :=
  {| _id := _id t; name := name t; displayName := displayName t;
     description := description t; color := color t;
     isActive := isActive t; createdBy := createdBy t; usageCount := x |}.

(** [this.save()] after a write to [usageCount], whose validator is
    [min: 0]. *)
Definition save (this : Tag) : Tag * option Error :=
  if bool_decide (0 ≤ usageCount this) then (this, None)
  else (this, Some (ValidationError "usageCount")).

(** [tagSchema.methods.incrementUsage] *)
Definition incrementUsage (this : Tag) : Tag * option Error :=
  save (set_usageCount (usageCount this + 1) this).

(** [tagSchema.methods.decrementUsage]: at zero the method does nothing
    and returns [undefined]. *)
Definition decrementUsage (this : Tag) : Tag * option Error :=
  if bool_decide (0 < usageCount this)
  then save (set_usageCount (usageCount this - 1) this)
  else (this, None).

End TagModel.

(** ** controllers/postController.js: creating a post *)
Module PostCreation.
Import PostModel.

(** What [createPost] hands back: an answer, the 403 answer that also
    carries [postLimit: true], or an error that escapes to [next]. *)
Inductive Result :=
| Answer (r : Response (Post * option (string * string)))
| LimitReached (r : Response (Post * option (string * string)))
| Failed (e : Error).

(** The loop over the tag names that both [createPost] and [updatePost]
    run: the tag of that name, if there is one, has its usage counted;
    an error in the body of the [try] is logged and dropped. The [name]
    path has a unique index, so the collection is keyed by it. *)
Definition countUsage (tags' : gmap string TagModel.Tag) (tagName : string)
    : gmap string TagModel.Tag :=
  match tags' !! tagName with
  | Some tag =>
      match TagModel.incrementUsage tag with
      | (tag', None) => <[tagName := tag']> tags'
      | (_, Some _) => tags'
      end
  | None => tags'
  end.

Definition countUsages (normalizedTags : list string)
    (tags' : gmap string TagModel.Tag) : gmap string TagModel.Tag :=
  foldl countUsage tags' normalizedTags.

Section WithLibrary.

(** JavaScript's [String.prototype.toLowerCase] and [trim]. *)
Variable toLowerCase trim : string → string.

(** The storage library on a new Post: the setters of the [tags] path
    ([lowercase], [trim]) on one tag, and whether the document passes the
    schema's validators. The setter of [title] is [trim]. *)
Variable castTag : string → string.
Variable validates : Post → bool.

(** [createPost]; [user] is [req.user], [now] the clock read of
    [hasMembership], [newId] the [_id] of the new document, one no post
    has, and [tCreated] the default of [lastActivity]. *)
Definition createPost (db : DB) (tags' : gmap string TagModel.Tag)
    (title' description' : option string) (bodyTags : option (list string))
    (user : UserModel.User) (now : Date) (newId : ObjectId)
    (tCreated : Date) : DB * gmap string TagModel.Tag * Result :=
  match truthy title', truthy description', bodyTags with
  | Some t, Some d, Some (tag :: rest) =>
      let postCount :=
        AuthController.countActivePosts db (UserModel._id user) in
      if negb (UserModel.hasMembership user now) && (5 <=? postCount)%nat
      then
        (db, tags',
         LimitReached
           (failure 403
              "Post limit reached. Upgrade to Gold membership for unlimited posts."))
      else
        let normalizedTags :=
          (λ tag, trim (toLowerCase tag)) <$> (tag :: rest) in
        let post :=
          create newId (trim t) d (castTag <$> normalizedTags)
            (UserModel._id user) (UserModel.name user)
            (UserModel.email user) (UserModel.profileImage user) tCreated in
        if validates post
        then
          (set_posts (<[newId := post]> (posts db)) db,
           countUsages normalizedTags tags',
           Answer
             {| status := 201; success := true;
                message := Some "Post created successfully";
                data :=
                  Some (post,
                        (λ u, (UserModel.name u, UserModel.profileImage u))
                          <$> users db !! UserModel._id user) |})
        else (db, tags', Failed (ValidationError "post"))
  | _, _, _ =>
      (db, tags',
       Answer
         (failure 400
            "Please provide title, description, and at least one tag"))
  end.

End WithLibrary.

End PostCreation.

(** ** models/Announcement.js *)
Module AnnouncementModel.

Inductive Priority := low | medium | high | urgent.
Inductive Kind := general | maintenance | feature | policy | event.
Inductive Audience := all | members | admins.

#[global] Instance Priority_eq_dec : EqDecision Priority.
Proof. solve_decision. Defined.
#[global] Instance Kind_eq_dec : EqDecision Kind.
Proof. solve_decision. Defined.
#[global] Instance Audience_eq_dec : EqDecision Audience.
Proof. solve_decision. Defined.

(** [type] is the path of that name; [expiresAt] is [None] for [null]. *)
Record Announcement := {
  _id : ObjectId;
  title : string;
  description : string;
  author : ObjectId;
  authorName : string;
  authorImage : string;
  priority : Priority;
  type : Kind;
  isActive : bool;
  isPinned : bool;
  expiresAt : option Date;
  views : Z;
  targetAudience : Audience
}.

Definition set_title (x : string) (a : Announcement) : Announcement :=
  {| _id := _id a; title := x; description := description a;
     author := author a; authorName := authorName a;
     authorImage := authorImage a; priority := priority a; type := type a;
     isActive := isActive a; isPinned := isPinned a;
     expiresAt := expiresAt a; views := views a;
     targetAudience := targetAudience a |}.

Definition set_description (x : string) (a : Announcement) : Announcement :=
  {| _id := _id a; title := title a; description := x;
     author := author a; authorName := authorName a;
     authorImage := authorImage a; priority := priority a; type := type a;
     isActive := isActive a; isPinned := isPinned a;
     expiresAt := expiresAt a; views := views a;
     targetAudience := targetAudience a |}.

Definition set_priority (x : Priority) (a : Announcement) : Announcement :=
  {| _id := _id a; title := title a; description := description a;
     author := author a; authorName := authorName a;
     authorImage := authorImage a; priority := x; type := type a;
     isActive := isActive a; isPinned := isPinned a;
     expiresAt := expiresAt a; views := views a;
     targetAudience := targetAudience a |}.

Definition set_type (x : Kind) (a : Announcement) : Announcement :=
  {| _id := _id a; title := title a; description := description a;
     author := author a; authorName := authorName a;
     authorImage := authorImage a; priority := priority a; type := x;
     isActive := isActive a; isPinned := isPinned a;
     expiresAt := expiresAt a; views := views a;
     targetAudience := targetAudience a |}.

Definition set_isActive (x : bool) (a : Announcement) : Announcement :=
  {| _id := _id a; title := title a; description := description a;
     author := author a; authorName := authorName a;
     authorImage := authorImage a; priority := priority a; type := type a;
     isActive := x; isPinned := isPinned a;
     expiresAt := expiresAt a; views := views a;
     targetAudience := targetAudience a |}.

Definition set_isPinned (x : bool) (a : Announcement) : Announcement :=
  {| _id := _id a; title := title a; description := description a;
     author := author a; authorName := authorName a;
     authorImage := authorImage a; priority := priority a; type := type a;
     isActive := isActive a; isPinned := x;
     expiresAt := expiresAt a; views := views a;
     targetAudience := targetAudience a |}.

Definition set_expiresAt (x : option Date) (a : Announcement) : Announcement :=
  {| _id := _id a; title := title a; description := description a;
     author := author a; authorName := authorName a;
     authorImage := authorImage a; priority := priority a; type := type a;
     isActive := isActive a; isPinned := isPinned a;
     expiresAt := x; views := views a;
     targetAudience := targetAudience a |}.

Definition set_views (x : Z) (a : Announcement) : Announcement :=
  {| _id := _id a; title := title a; description := description a;
     author := author a; authorName := authorName a;
     authorImage := authorImage a; priority := priority a; type := type a;
     isActive := isActive a; isPinned := isPinned a;
     expiresAt := expiresAt a; views := x;
     targetAudience := targetAudience a |}.

Definition set_targetAudience (x : Audience) (a : Announcement)
    : Announcement :=
  {| _id := _id a; title := title a; description := description a;
     author := author a; authorName := authorName a;
     authorImage := authorImage a; priority := priority a; type := type a;
     isActive := isActive a; isPinned := isPinned a;
     expiresAt := expiresAt a; views := views a;
     targetAudience := x |}.

(** The virtual [isExpired], as a truth value; [now] is its clock read. *)
Definition isExpired (this : Announcement) (now : Date) : bool :=
  match expiresAt this with
  | Some t => bool_decide (t < now)
  | None => false
  end.

(** The virtual [isCurrent]. *)
Definition isCurrent (this : Announcement) (now : Date) : bool :=
  isActive this &&
  match expiresAt this with
  | Some t => bool_decide (now < t)
  | None => true
  end.

(** [announcementSchema.pre('save')] *)
Definition preSave (this : Announcement) (now : Date) : Announcement :=
  match expiresAt this with
  | Some t => if bool_decide (t ≤ now) then set_isActive false this else this
  | None => this
  end.

(** [this.save()] of a document read from the store, after a write that
    its validators accept: the hook, then the write. *)
Definition save (this : Announcement) (now : Date) : Announcement :=
  preSave this now.

(** [announcementSchema.methods.incrementViews] *)
Definition incrementViews (this : Announcement) (tSave : Date)
    : Announcement :=
  save (set_views (views this + 1) this) tSave.

(** [announcementSchema.methods.togglePin] *)
Definition togglePin (this : Announcement) (tSave : Date) : Announcement :=
  save (set_isPinned (negb (isPinned this)) this) tSave.

(** The query of [getCurrentAnnouncements] and [getAnnouncementCount]:
    [isActive: true], [expiresAt] null or later than [now], and, unless
    the audience asked for is 'all', [targetAudience] that audience or
    'all'. *)
Definition matchesCurrent (targetAudience' : Audience) (now : Date)
    (a : Announcement) : bool :=
  isActive a &&
  match expiresAt a with
  | Some t => bool_decide (now < t)
  | None => true
  end &&
  (bool_decide (targetAudience' = all) ||
   bool_decide (targetAudience a = targetAudience') ||
   bool_decide (targetAudience a = all)).

(** [getCurrentAnnouncements]: the documents the query finds, as the
    part of the collection they make up (the order the sort puts them in,
    and the populated author, are not covered). *)
Definition getCurrentAnnouncements (anns : gmap ObjectId Announcement)
    (targetAudience' : Audience) (now : Date) : gmap ObjectId Announcement :=
  filter (λ ka, matchesCurrent targetAudience' now ka.2 = true) anns.

(** [getAnnouncementCount] *)
Definition getAnnouncementCount (anns : gmap ObjectId Announcement)
    (targetAudience' : Audience) (now : Date) : nat :=
  size (filter (λ ka : ObjectId * Announcement,
                  matchesCurrent targetAudience' now ka.2 = true) anns).

(** [cleanupExpired]: an update query, which runs no hook. *)
Definition cleanupExpired (anns : gmap ObjectId Announcement) (now : Date)
    : gmap ObjectId Announcement :=
  (λ a,
     match expiresAt a with
     | Some t =>
         if bool_decide (t ≤ now ∧ isActive a = true)
         then set_isActive false a else a
     | None => a
     end) <$> anns.

End AnnouncementModel.

(** ** controllers/announcementController.js *)
Module AnnouncementController.
Import AnnouncementModel.

(** The audience [getAnnouncements] and [getAnnouncementCount] ask for;
    [reqUser] is what [optionalAuth] left in [req.user]. *)
Definition audienceOf (reqUser : option UserModel.User) : Audience :=
  match reqUser with
  | Some user =>
      if bool_decide (UserModel.membership user = UserModel.gold)
      then members else all
  | None => all
  end.

(** [getAnnouncements]: the [count] and the [data] of the answer. *)
Definition getAnnouncements (anns : gmap ObjectId Announcement)
    (reqUser : option UserModel.User) (now : Date)
    : nat * gmap ObjectId Announcement :=
  let announcements :=
    getCurrentAnnouncements anns (audienceOf reqUser) now in
  (size announcements, announcements).

(** [getAnnouncement]; [now] is the clock read of [isCurrent], [tSave]
    that of the save. The [data] is the document and its populated
    author ([name profileImage]). *)
Definition getAnnouncement (db : DB) (anns : gmap ObjectId Announcement)
    (id : ObjectId) (reqUser : option UserModel.User) (now tSave : Date)
    : gmap ObjectId Announcement *
      Response (Announcement * option (string * string)) :=
  match anns !! id with
  | None => (anns, failure 404 "Announcement not found")
  | Some announcement =>
      if negb (isCurrent announcement now)
      then (anns, failure 404 "Announcement is not active or has expired")
      else if bool_decide (targetAudience announcement = members) &&
              match reqUser with
              | Some user =>
                  bool_decide (UserModel.membership user ≠ UserModel.gold)
              | None => true
              end
      then (anns, failure 403 "This announcement is for members only")
      else if bool_decide (targetAudience announcement = admins) &&
              match reqUser with
              | Some user =>
                  bool_decide (UserModel.role user ≠ UserModel.Role.admin)
              | None => true
              end
      then (anns, failure 403 "This announcement is for admins only")
      else
        let announcement' := incrementViews announcement tSave in
        (<[id := announcement']> anns,
         {| status := 200; success := true; message := None;
            data := Some (announcement',
                          (λ u, (UserModel.name u, UserModel.profileImage u))
                            <$> users db !! author announcement) |})
  end.


(** [togglePin] *)
Definition togglePin (anns : gmap ObjectId Announcement) (id : ObjectId)
    (tSave : Date) : gmap ObjectId Announcement * Response Announcement :=
  match anns !! id with
  | None => (anns, failure 404 "Announcement not found")
  | Some announcement =>
      let announcement' := AnnouncementModel.togglePin announcement tSave in
      (<[id := announcement']> anns,
       {| status := 200; success := true;
          message :=
            Some ("Announcement " +:+
                  (if isPinned announcement' then "pinned" else "unpinned")
                  +:+ " successfully");
          data := Some announcement' |})
  end.

End AnnouncementController.

(** ** forum-frontend: the reducer of the auth context *)
Module AuthContext.

Section Reducer.

(** The values the fields of a user object hold. *)
Variable Value : Type.

Record State := {
  user : option (gmap string Value);
  loading : bool;
  error : option string;
  isAuthenticated : bool;
  token : option string
}.

(** An action with its payload; [OTHER] is any type the [switch] has no
    case for. *)
Inductive Action :=
| LOGIN_START
| LOGIN_SUCCESS (payloadUser : option (gmap string Value))
                (payloadToken : option string)
| LOGIN_FAILURE (payload : string)
| LOGOUT
| SET_LOADING (payload : bool)
| UPDATE_USER (payload : option (gmap string Value))
| CLEAR_ERROR
| OTHER (type : string).

(** [initialState]; [storedToken] is [localStorage.getItem('token') ||
    null]. *)
Definition initialState (storedToken : option string) : State :=
  {| user := None; loading := true; error := None;
     isAuthenticated := false; token := storedToken |}.

(** [authReducer]. The spread of [null] adds no key, and in
    [{...state.user, ...action.payload}] the payload's keys win. *)
Definition authReducer (state : State) (action : Action) : State :=
  match action with
  | LOGIN_START =>
      {| user := user state; loading := true; error := None;
         isAuthenticated := isAuthenticated state; token := token state |}
  | LOGIN_SUCCESS payloadUser payloadToken =>
      {| user := payloadUser; loading := false; error := None;
         isAuthenticated := true; token := payloadToken |}
  | LOGIN_FAILURE payload =>
      {| user := None; loading := false; error := Some payload;
         isAuthenticated := false; token := None |}
  | LOGOUT =>
      {| user := None; loading := false; error := None;
         isAuthenticated := false; token := None |}
  | SET_LOADING payload =>
      {| user := user state; loading := payload; error := error state;
         isAuthenticated := isAuthenticated state; token := token state |}
  | UPDATE_USER payload =>
      {| user := Some (default ∅ payload ∪ default ∅ (user state));
         loading := loading state; error := error state;
         isAuthenticated := isAuthenticated state; token := token state |}
  | CLEAR_ERROR =>
      {| user := user state; loading := loading state; error := None;
         isAuthenticated := isAuthenticated state; token := token state |}
  | OTHER _ => state
  end.

Definition isLoginSuccess (action : Action) : Prop :=
  match action with
  | LOGIN_SUCCESS _ _ => True
  | _ => False
  end.

(** The state after the actions dispatched so far. *)
Definition dispatched (storedToken : option string) (actions : list Action)
    : State :=
  foldl authReducer (initialState storedToken) actions.

End Reducer.

End AuthContext.

(** * Proofs *)

(** ** Votes *)
Section Votes.
Import PostModel VoteSpec.

Lemma countVotes_app t (l k : list Voter) :
  countVotes t (l ++ k) = countVotes t l + countVotes t k.
Proof. unfold countVotes. rewrite filter_app, length_app. lia. Qed.

Lemma countVotes_total (l : list Voter) :
  countVotes up l + countVotes down l = Z.of_nat (length l).
Proof.
  unfold countVotes. induction l as [|v l IH]; [done|].
  rewrite !filter_cons. destruct v as [u [] tv]; simpl in *;
    repeat case_decide; try done; simpl; lia.
Qed.

Lemma voters_preSave orig p now : voters (preSave orig p now) = voters p.
Proof. unfold preSave. by case_bool_decide. Qed.

Lemma upVote_preSave orig p now : upVote (preSave orig p now) = upVote p.
Proof. unfold preSave. by case_bool_decide. Qed.

Lemma downVote_preSave orig p now :
  downVote (preSave orig p now) = downVote p.
Proof. unfold preSave. by case_bool_decide. Qed.

Lemma voters_vote p u t tVoted tActivity tSave :
  voters (vote p u t tVoted tActivity tSave) =
  withoutUser u (voters p) ++
    [{| userId := u; voteType := t; votedAt := tVoted |}].
Proof. unfold vote, save. rewrite voters_preSave. by destruct t. Qed.

Lemma voters_removeVote p u tSave :
  voters (removeVote p u tSave) = withoutUser u (voters p).
Proof. unfold removeVote, save. by rewrite voters_preSave. Qed.

Lemma vote_countsAgree p u t tVoted tActivity tSave :
  countsAgree (vote p u t tVoted tActivity tSave).
Proof.
  unfold countsAgree. rewrite voters_vote, !countVotes_app.
  unfold vote, save. rewrite upVote_preSave, downVote_preSave.
  destruct t; simpl; unfold countVotes; simpl; split; lia.
Qed.

Lemma removeVote_countsAgree p u tSave : countsAgree (removeVote p u tSave).
Proof.
  unfold countsAgree. rewrite voters_removeVote.
  unfold removeVote, save. by rewrite upVote_preSave, downVote_preSave.
Qed.

Lemma withoutUser_not_elem u (vs : list Voter) :
  u ∉ userId <$> withoutUser u vs.
Proof.
  intros (v & -> & Hv)%list_elem_of_fmap.
  apply list_elem_of_filter in Hv as [Hne _]. done.
Qed.

Lemma withoutUser_NoDup u (vs : list Voter) :
  NoDup (userId <$> vs) → NoDup (userId <$> withoutUser u vs).
Proof.
  unfold withoutUser. induction vs as [|v vs IH]; [done|].
  rewrite fmap_cons, NoDup_cons. intros [Hv Hvs].
  rewrite filter_cons. case_decide; [|by apply IH].
  rewrite fmap_cons, NoDup_cons. split; [|by apply IH].
  intros (w & Hw & Hin)%list_elem_of_fmap.
  apply list_elem_of_filter in Hin as [_ Hin].
  apply Hv, list_elem_of_fmap. eauto.
Qed.

Lemma withoutUser_absent u (vs : list Voter) :
  u ∉ userId <$> vs → withoutUser u vs = vs.
Proof.
  unfold withoutUser. induction vs as [|v vs IH]; [done|].
  rewrite fmap_cons, not_elem_of_cons. intros [Hne Hvs].
  rewrite filter_cons. case_decide; [|congruence].
  f_equal. by apply IH.
Qed.

Lemma vote_votesOnce p u t tVoted tActivity tSave :
  votesOnce p → votesOnce (vote p u t tVoted tActivity tSave).
Proof.
  unfold votesOnce. intros Hp. rewrite voters_vote, fmap_app. simpl.
  apply NoDup_app. split; [by apply withoutUser_NoDup|]. split.
  - intros x Hx ->%list_elem_of_singleton.
    by apply withoutUser_not_elem in Hx.
  - apply NoDup_singleton.
Qed.

Lemma removeVote_votesOnce p u tSave :
  votesOnce p → votesOnce (removeVote p u tSave).
Proof.
  unfold votesOnce. rewrite voters_removeVote. apply withoutUser_NoDup.
Qed.

Lemma remove_dups_NoDup (l : list ObjectId) : NoDup l → remove_dups l = l.
Proof.
  induction 1 as [|x l Hx Hl IH]; [done|].
  simpl. case_decide; [done|]. by rewrite IH.
Qed.

(** The third part of [consistent] follows from the other two. *)
Lemma consistent_intro p : countsAgree p → votesOnce p → consistent p.
Proof.
  intros [Hup Hdown] Honce. repeat split; try done.
  unfold distinctVoters. rewrite remove_dups_NoDup by done.
  rewrite length_fmap, Hup, Hdown. apply countVotes_total.
Qed.

Lemma applyOp_consistent p op : consistent p → consistent (applyOp p op).
Proof.
  intros (_ & Honce & _). destruct op; simpl; apply consistent_intro.
  - apply vote_countsAgree.
  - by apply vote_votesOnce.
  - apply removeVote_countsAgree.
  - by apply removeVote_votesOnce.
Qed.

Lemma applyOps_consistent ops p :
  consistent p → consistent (applyOps p ops).
Proof.
  unfold applyOps. revert p.
  induction ops as [|op ops IH]; intros p Hp; [done|].
  simpl. by apply IH, applyOp_consistent.
Qed.

(** A change that leaves the voter list and both counters alone keeps a
    document consistent. *)
Lemma consistent_same_votes p q :
  voters q = voters p → upVote q = upVote p → downVote q = downVote p →
  consistent p → consistent q.
Proof.
  unfold consistent, countsAgree, votesOnce, distinctVoters.
  by intros -> -> ->.
Qed.

Lemma reachable_consistent p : reachable p → consistent p.
Proof.
  induction 1 as [| p u t t1 t2 t3 _ IH | p u t3 _ IH | p t3 _ IH
                  | p ti de vi ta t3 _ IH | p t3 _ IH].
  - apply consistent_intro; [done|]. unfold votesOnce. simpl. constructor.
  - by apply (applyOp_consistent p (Vote u t t1 t2 t3)).
  - by apply (applyOp_consistent p (RemoveVote u t3)).
  - revert IH. apply consistent_same_votes; unfold incrementViews, save.
    + by rewrite voters_preSave.
    + by rewrite upVote_preSave.
    + by rewrite downVote_preSave.
  - revert IH.
    apply consistent_same_votes; unfold PostController.updateFields, save.
    + rewrite voters_preSave. destruct (truthy ti), (truthy de), vi,
        ta as [[|]|]; done.
    + rewrite upVote_preSave. destruct (truthy ti), (truthy de), vi,
        ta as [[|]|]; done.
    + rewrite downVote_preSave. destruct (truthy ti), (truthy de), vi,
        ta as [[|]|]; done.
  - revert IH.
    apply consistent_same_votes; unfold PostController.softDelete, save.
    + by rewrite voters_preSave.
    + by rewrite upVote_preSave.
    + by rewrite downVote_preSave.
Qed.

End Votes.

Section VoteRequests.
Import PostModel VoteSpec PostController.

Lemma find_None {A} (P : A → Prop) `{!∀ x, Decision (P x)} (l : list A) :
  find P l = None ↔ Forall (λ x, ¬ P x) l.
Proof.
  induction l as [|x l IH]; simpl.
  - split; [constructor|done].
  - case_decide as HP.
    + split; [done|]. by intros [? _]%Forall_cons.
    + rewrite IH, Forall_cons. tauto.
Qed.

Lemma find_app_r {A} (P : A → Prop) `{!∀ x, Decision (P x)} (l k : list A) :
  Forall (λ x, ¬ P x) l → find P (l ++ k) = find P k.
Proof.
  induction 1 as [|x l Hx Hl IH]; [done|].
  simpl. by case_decide.
Qed.

Lemma getUserVote_None p u :
  getUserVote p u = None ↔ u ∉ userId <$> voters p.
Proof.
  unfold getUserVote. rewrite fmap_None, find_None, Forall_forall.
  rewrite list_elem_of_fmap. split.
  - intros H (v & -> & Hv). by apply (H v).
  - intros H v Hv Heq. apply H. eauto.
Qed.

Lemma getUserVote_vote p u t tVoted tActivity tSave :
  getUserVote (vote p u t tVoted tActivity tSave) u = Some t.
Proof.
  unfold getUserVote. rewrite voters_vote, find_app_r.
  - simpl. by case_decide.
  - apply Forall_forall. intros v [Hne _]%list_elem_of_filter. done.
Qed.

Lemma visibility_preSave orig p now :
  visibility (preSave orig p now) = visibility p.
Proof. unfold preSave. by case_bool_decide. Qed.

Lemma author_preSave orig p now : author (preSave orig p now) = author p.
Proof. unfold preSave. by case_bool_decide. Qed.

Lemma visibility_vote p u t tVoted tActivity tSave :
  visibility (vote p u t tVoted tActivity tSave) = visibility p.
Proof. unfold vote, save. rewrite visibility_preSave. by destruct t. Qed.

Lemma author_vote p u t tVoted tActivity tSave :
  author (vote p u t tVoted tActivity tSave) = author p.
Proof. unfold vote, save. rewrite author_preSave. by destruct t. Qed.

(** A vote by a user without an entry, then its retraction, gives back
    the voter list. *)
Lemma voters_vote_removeVote p u t tVoted tActivity tSave tSave' :
  u ∉ userId <$> voters p →
  voters (removeVote (vote p u t tVoted tActivity tSave) u tSave') =
  voters p.
Proof.
  intros Hu. rewrite voters_removeVote, voters_vote.
  unfold withoutUser at 1. rewrite filter_app. simpl.
  rewrite filter_cons. simpl. case_decide; [done|].
  rewrite filter_nil, app_nil_r.
  fold (withoutUser u (withoutUser u (voters p))).
  by rewrite !withoutUser_absent
    by (try apply withoutUser_not_elem; rewrite ?withoutUser_absent; done).
Qed.

End VoteRequests.

Section VoteTheorems.
Import PostModel VoteSpec PostController.

(** C1. For every Post the program can hold and every sequence of [vote]
    and [removeVote] calls, the resulting post has [upVote] equal to the
    number of voter entries of type up, [downVote] equal to the number of
    entries of type down, no user id twice in the voter list, and so
    [upVote + downVote] equal to the number of distinct voters. *)
Theorem vote_sequence_consistent (p : Post) (ops : list Op) :
  reachable p →
  let q := applyOps p ops in
  upVote q = Z.of_nat (length (filter (λ v, voteType v = up) (voters q))) ∧
  downVote q = Z.of_nat (length (filter (λ v, voteType v = down) (voters q))) ∧
  NoDup (userId <$> voters q) ∧
  upVote q + downVote q = Z.of_nat (distinctVoters q).
Proof.
  intros Hp q.
  destruct (applyOps_consistent ops p (reachable_consistent p Hp))
    as ([Hup Hdown] & Honce & Htotal).
  done.
Qed.

Lemma vote_sequence_consistent_witness :
  let p := create 10%N "title" "text" ["tag"] 1%N "ann" "ann@forum" "img" 0 in
  let ops := [Vote 2%N up 1 1 1; Vote 3%N down 2 2 2; Vote 2%N down 3 3 3;
              RemoveVote 3%N 4; Vote 2%N down 5 5 5] in
  reachable p ∧
  upVote (applyOps p ops) = 0 ∧ downVote (applyOps p ops) = 1 ∧
  NoDup (userId <$> voters (applyOps p ops)).
Proof.
  intros p ops.
  pose proof (vote_sequence_consistent p ops (reach_create _ _ _ _ _ _ _ _ _))
    as (Hup & Hdown & Honce & _).
  split; [apply reach_create|].
  split; [exact Hup|]. split; [exact Hdown|exact Honce].
Defined.

End VoteTheorems.

Section VoteRequestTheorems.
Import PostModel VoteSpec PostController.

(** C8. For every private post and every authenticated user who is not
    its author, a vote request is rejected before any mutation: the store,
    and with it the post's voter list, [upVote] and [downVote], is what it
    was, the response is a failure, and for a request that carries a vote
    type ("up" or "down") it is the authorization error 403. *)
Theorem votePost_private_rejected (db : DB) (id : ObjectId) (p : Post)
    (user : UserModel.User) (voteType' : option string)
    (tVoted tActivity tSave : Date) :
  posts db !! id = Some p →
  visibility p = private →
  author p ≠ UserModel._id user →
  let out := votePost db id voteType' user tVoted tActivity tSave in
  out.1 = db ∧ posts out.1 !! id = Some p ∧ success out.2 = false ∧
  (∀ vt, parseVoteType voteType' = Some vt →
         out.2 = failure 403 "Cannot vote on private post").
Proof.
  intros Hp Hpriv Hauthor. unfold votePost.
  destruct (parseVoteType voteType') as [vt|]; simpl; [|by eauto].
  rewrite Hp. rewrite bool_decide_eq_true_2 by done. simpl.
  repeat split; done.
Qed.

Lemma votePost_private_rejected_witness :
  let p := set_visibility private
             (create 10%N "title" "text" ["tag"] 1%N "ann" "ann@forum"
                "img" 0) in
  let db := {| posts := {[ 10%N := p ]}; comments := ∅; users := ∅ |} in
  let user := UserModel.create 2%N "bob" "bob@forum" "hash" "img" 0 0 in
  (votePost db 10%N (Some "up") user 1 1 1).1 = db ∧
  (votePost db 10%N (Some "up") user 1 1 1).2 =
    failure 403 "Cannot vote on private post".
Proof.
  intros p db user.
  destruct (votePost_private_rejected db 10%N p user (Some "up") 1 1 1)
    as (Hdb & _ & _ & Hresp); [done..|].
  split; [exact Hdb|]. by apply (Hresp up).
Defined.

(** C7, as stated, fails: a user whose entry is a down vote and who sends
    "up" twice (a vote, then its retraction) leaves the post with one down
    vote fewer than before. *)
Lemma vote_twice_counterexample :
  ¬ (∀ (db : DB) (id : ObjectId) (p : Post) (user : UserModel.User)
       (s : option string) (vt : VoteType) (t1 t2 t3 t4 t5 t6 : Date),
       posts db !! id = Some p → reachable p →
       parseVoteType s = Some vt →
       getUserVote p (UserModel._id user) ≠ Some vt →
       ∃ q, voteTwice db id s user t1 t2 t3 t4 t5 t6 = Some q ∧
            upVote q = upVote p ∧ downVote q = downVote p ∧
            UserModel._id user ∉ userId <$> voters q).
Proof.
  intros H.
  pose (p0 := create 10%N "title" "text" ["tag"] 1%N "ann" "ann@forum"
                "img" 0).
  pose (p := vote p0 2%N down 1 1 1).
  pose (db := {| posts := {[ 10%N := p ]}; comments := ∅; users := ∅ |}).
  pose (user := UserModel.create 2%N "bob" "bob@forum" "hash" "img" 0 0).
  destruct (H db 10%N p user (Some "up") up 2 2 2 3 3 3)
    as (q & Hq & _ & Hdown & _).
  - done.
  - apply reach_vote, reach_create.
  - done.
  - done.
  - vm_compute in Hq. injection Hq as <-. done.
Qed.

(** C7, amended. For every post the program can hold, every user without
    an entry in its voter list and every request body, sending the same
    vote request twice in succession (a vote, then its retraction through
    [removeVote]) leaves the post with the [upVote] and [downVote] it had
    and with the voter list it had, in which the user does not appear. *)
Theorem vote_twice_restores (db : DB) (id : ObjectId) (p : Post)
    (user : UserModel.User) (s : option string) (t1 t2 t3 t4 t5 t6 : Date) :
  posts db !! id = Some p →
  reachable p →
  getUserVote p (UserModel._id user) = None →
  ∃ q, voteTwice db id s user t1 t2 t3 t4 t5 t6 = Some q ∧
       upVote q = upVote p ∧ downVote q = downVote p ∧
       voters q = voters p ∧
       UserModel._id user ∉ userId <$> voters q.
Proof.
  intros Hp Hreach Hnone.
  pose proof (proj1 (getUserVote_None _ _) Hnone) as Habsent.
  destruct (reachable_consistent p Hreach) as ([Hup Hdown] & _ & _).
  unfold voteTwice, votePost.
  destruct (parseVoteType s) as [vt|]; simpl; [|by eauto 10].
  rewrite Hp. case_bool_decide as Hpriv; simpl.
  { rewrite Hp. rewrite bool_decide_eq_true_2 by done. simpl. eauto 10. }
  rewrite Hnone. rewrite bool_decide_eq_false_2 by done. simpl.
  rewrite lookup_insert_eq.
  rewrite visibility_vote, author_vote.
  rewrite bool_decide_eq_false_2 by done.
  rewrite getUserVote_vote. rewrite bool_decide_eq_true_2 by done. simpl.
  rewrite lookup_insert_eq.
  eexists. split; [done|].
  pose proof (voters_vote_removeVote p (UserModel._id user) vt t1 t2 t3 t6
                Habsent) as Hvoters.
  destruct (removeVote_countsAgree (vote p (UserModel._id user) vt t1 t2 t3)
              (UserModel._id user) t6) as [Hup' Hdown'].
  rewrite Hvoters in Hup', Hdown'.
  rewrite Hvoters. repeat split; congruence.
Qed.

Lemma vote_twice_restores_witness :
  let p := vote (create 10%N "title" "text" ["tag"] 1%N "ann" "ann@forum"
                   "img" 0) 3%N down 1 1 1 in
  let db := {| posts := {[ 10%N := p ]}; comments := ∅; users := ∅ |} in
  let user := UserModel.create 2%N "bob" "bob@forum" "hash" "img" 0 0 in
  ∃ q, voteTwice db 10%N (Some "up") user 2 2 2 3 3 3 = Some q ∧
       upVote q = 0 ∧ downVote q = 1 ∧
       UserModel._id user ∉ userId <$> voters q.
Proof.
  intros p db user.
  destruct (vote_twice_restores db 10%N p user (Some "up") 2 2 2 3 3 3)
    as (q & Hq & Hup & Hdown & _ & Habsent).
  - done.
  - apply reach_vote, reach_create.
  - done.
  - exists q. split; [exact Hq|]. split; [exact Hup|].
    split; [exact Hdown|exact Habsent].
Defined.

End VoteRequestTheorems.

Section Comments.
Import CommentModel CommentSpec.

Lemma preSave_flagged c : flagged (preSave c).
Proof.
  unfold flagged, preSave. simpl. destruct (reports c); simpl; split; done.
Qed.

Lemma save_fulfilled valid path c c' :
  save valid path c = (c', None) → c' = preSave c.
Proof. unfold save. destruct valid; congruence. Qed.

Lemma save_true path c : save true path c = (preSave c, None).
Proof. done. Qed.

Lemma save_flagged valid path c c' :
  save valid path c = (c', None) → flagged c'.
Proof. intros ->%save_fulfilled. apply preSave_flagged. Qed.

Lemma addReport_fulfilled c userId feedback' rid now c' :
  addReport c userId feedback' rid now = (c', None) →
  find (λ report, Report.reportedBy report = userId) (reports c) = None ∧
  c' = preSave
         (set_isReported true
            (set_reports
               (reports c ++
                [{| Report._id := rid; Report.reportedBy := userId;
                    Report.feedback := feedback'; Report.reportedAt := now;
                    Report.status := ReportStatus.pending |}]) c)).
Proof.
  unfold addReport.
  destruct (find _ (reports c)); [done|].
  intros ->%save_fulfilled. done.
Qed.

Lemma addReport_duplicate c userId r feedback' rid now :
  find (λ report, Report.reportedBy report = userId) (reports c) = Some r →
  addReport c userId feedback' rid now =
    (c, Some (JsError duplicateReportMessage)).
Proof. unfold addReport. by intros ->. Qed.

Lemma step_flagged c c' : step c c' → flagged c → flagged c'.
Proof.
  intros Hstep Hc.
  destruct Hstep as [c u fb rid now c' H | c rid st c' H | c st m c' H
                     | c st c' H | c co c' H | c c' H | c ms rs].
  - apply addReport_fulfilled in H as [_ ->]. apply preSave_flagged.
  - unfold updateReportStatus in H.
    destruct (setStatusById _ _ _); [by eapply save_flagged|done].
  - unfold moderate in H. by eapply save_flagged.
  - unfold AdminController.updatePendingReports in H.
    by eapply save_flagged.
  - unfold CommentController.updateContent in H. by eapply save_flagged.
  - unfold CommentController.softDelete in H. by eapply save_flagged.
  - unfold flagged in *. simpl. rewrite Hc.
    destruct (reports c); simpl; split; done.
Qed.

Lemma reachable_flagged c : reachable c → flagged c.
Proof.
  intros (c0 & Hc0 & Hsteps).
  assert (flagged c0) as H0.
  { destruct Hc0 as (? & ? & ? & ? & ? & ? & ? & Hc0).
    unfold create in Hc0. by eapply save_flagged. }
  clear Hc0. induction Hsteps as [|c0 c1 c Hstep _ IH]; [done|].
  apply IH. by eapply step_flagged.
Qed.

(** Reports are never taken out, and who made them never changes. *)
Lemma setStatusById_reporters reportId status' rs rs' :
  setStatusById reportId status' rs = Some rs' →
  Report.reportedBy <$> rs' = Report.reportedBy <$> rs.
Proof.
  revert rs'. induction rs as [|r rs IH]; intros rs'; simpl; [done|].
  case_bool_decide.
  - by intros [= <-].
  - destruct (setStatusById reportId status' rs) as [rs0|]; simpl; [|done].
    intros [= <-]. simpl. f_equal. by apply IH.
Qed.

Lemma reporters_preSave c : reporters (preSave c) = reporters c.
Proof. done. Qed.

Lemma step_reporters c c' userId :
  step c c' → userId ∈ reporters c → userId ∈ reporters c'.
Proof.
  intros Hstep Hu.
  destruct Hstep as [c u fb rid now c' H | c rid st c' H | c st m c' H
                     | c st c' H | c co c' H | c c' H | c ms rs].
  - apply addReport_fulfilled in H as [_ ->].
    unfold reporters in *. simpl. rewrite fmap_app, elem_of_app. by left.
  - unfold updateReportStatus in H.
    destruct (setStatusById _ _ _) as [rs|] eqn:Hrs; [|done].
    apply save_fulfilled in H as ->. unfold reporters in *. simpl.
    by rewrite (setStatusById_reporters _ _ _ _ Hrs).
  - unfold moderate in H. apply save_fulfilled in H as ->.
    unfold reporters in *. simpl. by case_bool_decide.
  - unfold AdminController.updatePendingReports in H.
    apply save_fulfilled in H as ->. unfold reporters in *. simpl.
    unfold AdminController.sweepPending. rewrite <- list_fmap_compose.
    erewrite list_fmap_ext; [exact Hu|].
    intros i r _. simpl. by case_bool_decide.
  - unfold CommentController.updateContent in H.
    by apply save_fulfilled in H as ->.
  - unfold CommentController.softDelete in H.
    by apply save_fulfilled in H as ->.
  - unfold reporters in *. simpl. by rewrite <- list_fmap_compose.
Qed.

Lemma steps_reporters c c' userId :
  rtc step c c' → userId ∈ reporters c → userId ∈ reporters c'.
Proof.
  induction 1 as [|c c1 c' Hstep _ IH]; [done|].
  intros Hu. apply IH. by eapply step_reporters.
Qed.

Lemma addReport_reporter c userId feedback' rid now :
  userId ∈ reporters c →
  addReport c userId feedback' rid now =
    (c, Some (JsError duplicateReportMessage)).
Proof.
  intros Hu.
  destruct (find (λ report, Report.reportedBy report = userId) (reports c))
    as [r|] eqn:Hfind; [by eapply addReport_duplicate|].
  apply (find_None (λ report, Report.reportedBy report = userId)) in Hfind.
  apply list_elem_of_fmap in Hu as (r & -> & Hr).
  rewrite Forall_forall in Hfind. by destruct (Hfind r Hr).
Qed.

(** [reportComment] for a user who already reported the comment: the
    duplicate error becomes a 400 and nothing is written. *)
Lemma reportComment_duplicate db id c feedback' fb user rid now :
  truthy feedback' = Some fb →
  comments db !! id = Some c →
  isActive c = true →
  UserModel._id user ∈ reporters c →
  CommentController.reportComment db id feedback' user rid now =
    (db, Responded (failure 400 "You have already reported this comment")).
Proof.
  intros Hfb Hc Hactive Hu. unfold CommentController.reportComment.
  rewrite Hfb, Hc, Hactive. simpl.
  by rewrite addReport_reporter.
Qed.

End Comments.

Section CommentTheorems.
Import CommentModel CommentSpec.

(** C3. When [addReport] succeeds for a user it appends the entry
    (userId, feedback, status pending) and sets [isReported]; on the
    resulting comment, and on whatever later writes make of it, a second
    [addReport] by the same user fails with the duplicate-report error and
    leaves the comment, and so the length of its report list, as it
    was. *)
Theorem addReport_once (c c' : Comment) (userId : ObjectId)
    (feedback' : string) (rid : ObjectId) (now : Date) :
  addReport c userId feedback' rid now = (c', None) →
  reports c' = reports c ++
    [{| Report._id := rid; Report.reportedBy := userId;
        Report.feedback := feedback'; Report.reportedAt := now;
        Report.status := ReportStatus.pending |}] ∧
  isReported c' = true ∧
  ∀ c'' feedback2 rid2 now2,
    rtc step c' c'' →
    addReport c'' userId feedback2 rid2 now2 =
      (c'', Some (JsError "You have already reported this comment")) ∧
    length (reports (addReport c'' userId feedback2 rid2 now2).1) =
      length (reports c'').
Proof.
  intros [Hfresh ->]%addReport_fulfilled.
  split; [done|]. split.
  { unfold preSave. simpl. rewrite length_app. simpl.
    apply Nat.ltb_lt. lia. }
  intros c'' feedback2 rid2 now2 Hsteps.
  rewrite addReport_reporter; [done|].
  eapply steps_reporters; [exact Hsteps|].
  unfold reporters. simpl. rewrite fmap_app, elem_of_app. right.
  simpl. by apply list_elem_of_singleton.
Qed.

Lemma addReport_once_witness :
  let c := (create 20%N 10%N "title" "well said" 1%N "ann" "ann@forum").1 in
  let c' := (addReport c 2%N "False information" 31%N 5).1 in
  length (reports c') = 1%nat ∧ isReported c' = true ∧
  addReport c' 2%N "Spam or promotional content" 32%N 6 =
    (c', Some (JsError "You have already reported this comment")).
Proof.
  intros c c'.
  destruct (addReport_once c c' 2%N "False information" 31%N 5)
    as (Hreports & Hflag & Hagain); [done|].
  split; [by rewrite Hreports|]. split; [exact Hflag|].
  exact (proj1 (Hagain c' "Spam or promotional content" 32%N 6
                  (rtc_refl _ _))).
Defined.

(** C4. For every comment and every moderation status, [moderate] sets
    the comment's [moderationStatus] to that status and its save goes
    through; when the status is removed the comment's [isActive] is false
    afterwards, and otherwise [isActive] is what it was. *)
Theorem moderate_sets_status (c : Comment) (status' : ModerationStatus.t)
    (moderatorId : ObjectId) :
  (moderate c status' moderatorId).2 = None ∧
  moderationStatus (moderate c status' moderatorId).1 = status' ∧
  (status' = ModerationStatus.removed →
   isActive (moderate c status' moderatorId).1 = false) ∧
  (status' ≠ ModerationStatus.removed →
   isActive (moderate c status' moderatorId).1 = isActive c).
Proof.
  unfold moderate. rewrite save_true. simpl.
  split; [done|]. split; [by case_bool_decide|].
  split; intros Hst.
  - by rewrite bool_decide_eq_true_2.
  - by rewrite bool_decide_eq_false_2.
Qed.

(** C9. For every comment reached through creation, [addReport],
    report-status updates, moderation, content updates, soft delete and
    the bulk update, [isReported] is true exactly when the report list is
    not empty. *)
Theorem isReported_iff_reports (c : Comment) :
  reachable c → (isReported c = true ↔ reports c ≠ []).
Proof. apply reachable_flagged. Qed.

Lemma isReported_iff_reports_witness :
  let c0 := (create 20%N 10%N "title" "well said" 1%N "ann" "ann@forum").1 in
  let c1 := (addReport c0 2%N "False information" 31%N 5).1 in
  let c2 := (moderate c1 ModerationStatus.flagged 9%N).1 in
  reachable c2 ∧ (isReported c2 = true ↔ reports c2 ≠ []).
Proof.
  intros c0 c1 c2.
  assert (reachable c2) as Hc2.
  { exists c0. split.
    - by exists 20%N, 10%N, "title", "well said", 1%N, "ann", "ann@forum".
    - apply (rtc_l _ _ c1);
        [by apply (step_addReport c0 2%N "False information" 31%N 5)|].
      apply rtc_once.
      by apply (step_moderate c1 ModerationStatus.flagged 9%N). }
  split; [exact Hc2|]. exact (isReported_iff_reports c2 Hc2).
Defined.

End CommentTheorems.

Section ModerationTheorems.
Import CommentModel AdminController.

(** The bulk update writes two paths and leaves [isActive] alone. *)
Lemma bulkAction_lookup db ids action a id c :
  ids ≠ [] → parseAction action = Some a →
  comments db !! id = Some c →
  comments (bulkActionReportedComments db (Some ids) action).1 !! id =
    Some (if bool_decide (id ∈ ids)
          then bulkUpdate (moderationStatusFor a) (reportStatusFor a) c
          else c).
Proof.
  intros Hids Ha Hc. unfold bulkActionReportedComments.
  destruct ids as [|i ids]; [done|]. rewrite Ha. simpl.
  rewrite map_lookup_imap, Hc. done.
Qed.

Lemma bulkAction_isActive db ids action id c :
  comments db !! id = Some c →
  ∃ c', comments (bulkActionReportedComments db ids action).1 !! id = Some c' ∧
        isActive c' = isActive c.
Proof.
  intros Hc. unfold bulkActionReportedComments.
  destruct ids as [[|i ids]|]; [by eauto| |by eauto].
  destruct (parseAction action) as [a|]; [|by eauto]. simpl.
  rewrite map_lookup_imap, Hc. simpl.
  eexists. split; [done|]. by case_bool_decide.
Qed.

(** The single-comment path: [handleReportedComment] with the action
    "remove" and no [reportId] goes through [moderate], so the stored
    comment ends up removed and inactive with its pending reports
    resolved. *)
Lemma handleReportedComment_remove db id c user :
  comments db !! id = Some c →
  ∃ c', comments (handleReportedComment db id (Some "remove") None user).1
          !! id = Some c' ∧
        moderationStatus c' = ModerationStatus.removed ∧
        isActive c' = false ∧
        reports c' = sweepPending ReportStatus.resolved (reports c).
Proof.
  intros Hc. unfold handleReportedComment. simpl. rewrite Hc. simpl.
  rewrite lookup_insert_eq. eauto.
Qed.

(** Whatever the action and whether or not a report is named, the comment
    [handleReportedComment] leaves in the store has the moderation status
    of the table, and is inactive when the action is "remove". *)
Lemma handleReportedComment_moderates db id c action a reportId user :
  parseAction action = Some a →
  comments db !! id = Some c →
  ∃ c', comments (handleReportedComment db id action reportId user).1 !! id
          = Some c' ∧
        moderationStatus c' = moderationStatusFor a ∧
        (a = remove → isActive c' = false).
Proof.
  intros Ha Hc. unfold handleReportedComment. rewrite Ha, Hc.
  unfold moderate. rewrite save_true.
  destruct reportId as [rid|].
  - unfold updateReportStatus.
    destruct (setStatusById _ _ _) as [rs|]; simpl.
    + rewrite lookup_insert_eq. eexists. split; [done|].
      split; [by case_bool_decide|]. by intros ->.
    + rewrite lookup_insert_eq. eexists. split; [done|].
      split; [by case_bool_decide|]. by intros ->.
  - simpl. rewrite lookup_insert_eq. eexists. split; [done|].
    split; [by case_bool_decide|]. by intros ->.
Qed.

(** C2 at a comment with two pending reports: the bulk action "remove"
    stores the moderation status removed and resolves both reports, and
    the comment is still active. *)
Theorem bulk_remove_keeps_comment_active :
  let c0 := (create 20%N 10%N "title" "well said" 1%N "ann" "ann@forum").1 in
  let c1 := (addReport c0 2%N "False information" 31%N 5).1 in
  let c2 := (addReport c1 3%N "Spam or promotional content" 32%N 6).1 in
  let db := {| posts := ∅; comments := {[ 20%N := c2 ]}; users := ∅ |} in
  pendingReportsCount c2 = 2%nat ∧ isActive c2 = true ∧
  ∃ c', comments (bulkActionReportedComments db (Some [20%N])
                    (Some "remove")).1 !! 20%N = Some c' ∧
        moderationStatus c' = ModerationStatus.removed ∧
        Report.status <$> reports c' =
          [ReportStatus.resolved; ReportStatus.resolved] ∧
        isActive c' = true.
Proof.
  intros c0 c1 c2 db. split; [done|]. split; [done|].
  eexists. split.
  { by apply (bulkAction_lookup db [20%N] (Some "remove") remove 20%N c2). }
  done.
Qed.

End ModerationTheorems.

Section Membership.
Import UserModel MembershipSpec.

Lemma hasGoldBadge_count bs :
  hasGoldBadge bs = true ↔
  (0 < length (filter (λ badge, type badge = gold) bs))%nat.
Proof.
  unfold hasGoldBadge. rewrite bool_decide_eq_true, Exists_exists.
  split.
  - intros (b & Hb & Hgold).
    assert (b ∈ filter (λ badge, type badge = gold) bs) as Hin
      by by apply list_elem_of_filter.
    destruct (filter _ bs); [by apply not_elem_of_nil in Hin|simpl; lia].
  - intros Hlen. destruct (filter _ bs) as [|b l] eqn:Hf; [simpl in Hlen; lia|].
    assert (b ∈ filter (λ badge, type badge = gold) bs) as Hin
      by (rewrite Hf; left).
    apply list_elem_of_filter in Hin as [? ?]. eauto.
Qed.

(** A new user has the bronze badge only. *)
Lemma create_goldBadgeCount id name' email' hash profileImage' lastLogin' now :
  goldBadgeCount (create id name' email' hash profileImage' lastLogin' now)
  = 0%nat.
Proof. done. Qed.

Lemma upgradeToGold_goldBadgeCount u dateNow tEarned :
  (goldBadgeCount u ≤ 1)%nat →
  goldBadgeCount (upgradeToGold u dateNow tEarned) = 1%nat.
Proof.
  unfold goldBadgeCount, upgradeToGold. simpl. intros Hle.
  destruct (hasGoldBadge (badges u)) eqn:Hhas; simpl.
  - apply hasGoldBadge_count in Hhas. lia.
  - apply not_true_iff_false in Hhas. rewrite hasGoldBadge_count in Hhas.
    rewrite filter_app, length_app. simpl. lia.
Qed.

Lemma upgrades_goldBadgeCount calls u :
  (goldBadgeCount u ≤ 1)%nat → (goldBadgeCount (upgrades u calls) ≤ 1)%nat.
Proof.
  unfold upgrades. revert u.
  induction calls as [|call calls IH]; intros u Hu; [done|].
  simpl. apply IH. by rewrite upgradeToGold_goldBadgeCount.
Qed.

End Membership.

Section MembershipTheorems.
Import UserModel MembershipSpec.

(** Effective gold membership: the tier is gold and the expiry is unset
    or later than [now]. *)
Lemma hasMembership_true u now :
  hasMembership u now = true ↔
  membership u = gold ∧
  (membershipExpiry u = None ∨
   ∃ expiry, membershipExpiry u = Some expiry ∧ now < expiry).
Proof.
  unfold hasMembership. rewrite andb_true_iff, bool_decide_eq_true.
  destruct (membershipExpiry u) as [expiry|].
  - rewrite bool_decide_eq_true. split.
    + intros [? ?]. eauto.
    + intros [? [?|(e & [= <-] & ?)]]; done.
  - split; [|by intros [? _]].
    intros [? _]. split; [done|]. by left.
Qed.

(** C5. For every user and every store, whatever number of active posts
    it holds for the user, [canPost] answers true exactly when the user
    has effective gold membership (tier gold, expiry unset or in the
    future) or that number is below 5: true for an effective gold member
    whatever the number, and (number < 5) for a bronze member. It leaves
    the store as it was. *)
Theorem canPost_iff (db : DB) (u : User) (now : Date) :
  let count := AuthController.countActivePosts db (_id u) in
  (AuthController.canPost db u now).1 = db ∧
  ∃ d, data (AuthController.canPost db u now).2 = Some d ∧
       (AuthController.CanPostData.canPost d = true ↔
        (membership u = gold ∧
         (membershipExpiry u = None ∨
          ∃ expiry, membershipExpiry u = Some expiry ∧ now < expiry)) ∨
        (count < 5)%nat) ∧
       (hasMembership u now = true →
        AuthController.CanPostData.canPost d = true) ∧
       (membership u = bronze →
        AuthController.CanPostData.canPost d = (count <? 5)%nat).
Proof.
  intros count. split; [done|]. eexists. split; [done|]. simpl.
  fold count. split; [|split].
  - split.
    + intros [H|H]%orb_true_iff;
        [left; by apply hasMembership_true|right; by apply Nat.ltb_lt].
    + intros [H|H]; apply orb_true_iff;
        [left; by apply hasMembership_true|right; by apply Nat.ltb_lt].
  - by intros ->.
  - intros Hbronze. unfold hasMembership. rewrite Hbronze. done.
Qed.

(** C6. For every user with at most one gold badge, after any number of
    [upgradeToGold] calls the badge list still has at most one gold badge,
    and one more call at time [dateNow] sets the tier to gold, sets the
    expiry to [dateNow] plus 365 days, and appends a gold badge only if
    the list had none. *)
Theorem upgradeToGold_spec (u : User) (calls : list (Date * Date))
    (dateNow tEarned : Date) :
  (goldBadgeCount u ≤ 1)%nat →
  let u1 := upgrades u calls in
  let u2 := upgradeToGold u1 dateNow tEarned in
  (goldBadgeCount u1 ≤ 1)%nat ∧
  (goldBadgeCount u2 ≤ 1)%nat ∧
  membership u2 = gold ∧
  membershipExpiry u2 = Some (dateNow + 31536000000) ∧
  badges u2 =
    if bool_decide (Exists (λ badge, type badge = gold) (badges u1))
    then badges u1
    else badges u1 ++ [{| type := gold; earnedAt := tEarned |}].
Proof.
  intros Hu u1 u2.
  assert (goldBadgeCount u1 ≤ 1)%nat as Hu1 by by apply upgrades_goldBadgeCount.
  split; [done|]. split.
  { unfold u2. by rewrite upgradeToGold_goldBadgeCount. }
  unfold u2, upgradeToGold, hasGoldBadge. simpl.
  by destruct (bool_decide (Exists _ (badges u1))).
Qed.

Lemma upgradeToGold_spec_witness :
  let u := create 2%N "bob" "bob@forum" "hash" "img" 0 0 in
  let u2 := upgradeToGold (upgrades u [(100, 101); (200, 201)]) 300 301 in
  (goldBadgeCount u ≤ 1)%nat ∧
  (goldBadgeCount u2 ≤ 1)%nat ∧
  membershipExpiry u2 = Some 31536000300.
Proof.
  intros u u2.
  assert (goldBadgeCount u ≤ 1)%nat as Hu by (vm_compute; lia).
  destruct (upgradeToGold_spec u [(100, 101); (200, 201)] 300 301 Hu)
    as (_ & Hcount & _ & Hexpiry & _).
  split; [exact Hu|]. split; [exact Hcount|exact Hexpiry].
Defined.

(** C10. For every user whose stored tier is gold, [upgradeMembership]
    answers with the already-gold error 400 and leaves the store as it
    was, whatever the stored expiry; a user whose stored tier is not gold
    is upgraded: the store holds the record [upgradeToGold] makes of the
    stored one, and the answer is a 200 whose data is gold and carries no
    password. *)
Theorem upgradeMembership_gold_rejected (db : DB) (reqUser u : User)
    (dateNow tEarned : Date) :
  users db !! _id reqUser = Some u →
  (membership u = gold →
   UserController.upgradeMembership db reqUser dateNow tEarned =
     (db, Responded (failure 400 "User already has gold membership"))) ∧
  (membership u ≠ gold →
   (UserController.upgradeMembership db reqUser dateNow tEarned).1 =
     set_users (<[_id reqUser := upgradeToGold u dateNow tEarned]> (users db))
       db ∧
   ∃ r d, (UserController.upgradeMembership db reqUser dateNow tEarned).2 =
            Responded r ∧
          status r = 200%nat ∧ success r = true ∧ data r = Some d ∧
          membership d = gold ∧ password d = None).
Proof.
  intros Hu. unfold UserController.upgradeMembership. rewrite Hu.
  split; intros Hm.
  - by rewrite bool_decide_eq_true_2.
  - rewrite bool_decide_eq_false_2 by done. split; [done|].
    eexists _, _. repeat split.
    unfold toJSON, upgradeToGold. simpl. by case_match.
Qed.

Lemma upgradeMembership_gold_rejected_witness :
  let u := set_membershipExpiry (Some 50)
             (set_membership gold
                (create 2%N "bob" "bob@forum" "hash" "img" 0 0)) in
  let db := {| posts := ∅; comments := ∅; users := {[ 2%N := u ]} |} in
  hasMembership u 1000 = false ∧
  UserController.upgradeMembership db u 1000 1001 =
    (db, Responded (failure 400 "User already has gold membership")).
Proof.
  intros u db. split; [reflexivity|].
  apply (upgradeMembership_gold_rejected db u u 1000 1001); reflexivity.
Defined.

End MembershipTheorems.

(** * Further properties of the modelled code *)

(** ** Votes: what a call does to the caller and to everybody else *)
Section VoteDetails.
Import PostModel VoteSpec PostController.

Lemma find_app {A} (P : A → Prop) `{!∀ x, Decision (P x)} (l k : list A) :
  find P (l ++ k) = match find P l with Some x => Some x | None => find P k end.
Proof.
  induction l as [|x l IH]; [done|]. simpl. by case_decide.
Qed.

Lemma find_withoutUser_other u w (vs : list Voter) :
  w ≠ u →
  find (λ voter, userId voter = w) (withoutUser u vs) =
  find (λ voter, userId voter = w) vs.
Proof.
  intros Hne. unfold withoutUser. induction vs as [|v vs IH]; [done|].
  rewrite filter_cons. simpl. destruct (decide (userId v ≠ u)) as [Hv|Hv].
  - simpl. by rewrite IH.
  - apply dec_stable in Hv. rewrite IH.
    case_decide; [congruence|done].
Qed.

Lemma find_withoutUser_self u (vs : list Voter) :
  find (λ voter, userId voter = u) (withoutUser u vs) = None.
Proof.
  apply find_None, Forall_forall.
  intros v [Hne _]%list_elem_of_filter. done.
Qed.

Lemma getUserVote_removeVote p u tSave :
  getUserVote (removeVote p u tSave) u = None.
Proof.
  unfold getUserVote. by rewrite voters_removeVote, find_withoutUser_self.
Qed.

Lemma getUserVote_other p u w t tVoted tActivity tSave :
  w ≠ u →
  getUserVote (vote p u t tVoted tActivity tSave) w = getUserVote p w ∧
  getUserVote (removeVote p u tSave) w = getUserVote p w.
Proof.
  intros Hne. unfold getUserVote.
  rewrite voters_vote, voters_removeVote, find_app.
  rewrite find_withoutUser_other by done. split; [|done].
  destruct (find _ (voters p)); [done|]. simpl.
  case_decide; [congruence|done].
Qed.

(** X1. A call of [vote] or [removeVote] changes the recorded vote of the
    caller and of nobody else: after [vote] the caller's vote is the type
    given, whatever was recorded before, after [removeVote] the caller
    has none, and the vote recorded for any other user is what it was. *)
Theorem vote_changes_only_the_caller (p : Post) (u w : ObjectId)
    (t : VoteType) (tVoted tActivity tSave : Date) :
  getUserVote (vote p u t tVoted tActivity tSave) w =
    (if bool_decide (w = u) then Some t else getUserVote p w) ∧
  getUserVote (removeVote p u tSave) w =
    (if bool_decide (w = u) then None else getUserVote p w).
Proof.
  case_bool_decide as Hw.
  - subst w. split; [apply getUserVote_vote|apply getUserVote_removeVote].
  - by apply getUserVote_other.
Qed.

Lemma countVotes_withoutUser t u (vs : list Voter) :
  NoDup (userId <$> vs) →
  countVotes t (withoutUser u vs) =
  countVotes t vs -
  (if bool_decide (voteType <$> find (λ voter, userId voter = u) vs = Some t)
   then 1 else 0).
Proof.
  unfold withoutUser, countVotes.
  induction vs as [|v vs IH]; [done|].
  rewrite fmap_cons, NoDup_cons. intros [Hv Hvs].
  rewrite !filter_cons. simpl.
  destruct (decide (userId v = u)) as [Heq|Hne].
  - rewrite decide_False by (intros ?; done).
    fold (withoutUser u vs).
    rewrite withoutUser_absent by congruence. simpl.
    destruct (decide (voteType v = t)) as [Ht|Ht].
    + rewrite bool_decide_eq_true_2 by congruence. simpl. lia.
    + rewrite bool_decide_eq_false_2 by congruence. lia.
  - rewrite decide_True by done. rewrite filter_cons.
    specialize (IH Hvs).
    destruct (decide (voteType v = t)); simpl; lia.
Qed.

(** X2. On a post the program holds, [removeVote] takes one off the
    counter of the caller's recorded vote and nothing else, and [vote]
    does the same and then adds one to the counter of the type given: a
    changed vote moves one from a counter to the other, a new vote adds
    one, a repeated vote changes no counter. *)
Theorem vote_counter_arithmetic (p : Post) (u : ObjectId) (t : VoteType)
    (tVoted tActivity tSave : Date) :
  reachable p →
  let had (x : VoteType) : Z :=
    if bool_decide (getUserVote p u = Some x) then 1 else 0 in
  let gets (x : VoteType) : Z := if bool_decide (t = x) then 1 else 0 in
  upVote (removeVote p u tSave) = upVote p - had up ∧
  downVote (removeVote p u tSave) = downVote p - had down ∧
  upVote (vote p u t tVoted tActivity tSave) = upVote p - had up + gets up ∧
  downVote (vote p u t tVoted tActivity tSave) =
    downVote p - had down + gets down.
Proof.
  intros Hp had gets.
  destruct (reachable_consistent p Hp) as ([Hup Hdown] & Honce & _).
  destruct (removeVote_countsAgree p u tSave) as [Hup1 Hdown1].
  destruct (vote_countsAgree p u t tVoted tActivity tSave) as [Hup2 Hdown2].
  rewrite voters_removeVote in Hup1, Hdown1.
  rewrite voters_vote, countVotes_app in Hup2, Hdown2.
  rewrite countVotes_withoutUser in Hup1, Hdown1, Hup2, Hdown2 by done.
  rewrite Hup1, Hdown1, Hup2, Hdown2, Hup, Hdown.
  unfold had, gets, getUserVote, countVotes. simpl.
  destruct t; simpl; repeat split; lia.
Qed.

Lemma vote_counter_arithmetic_witness :
  let p := vote (create 10%N "title" "text" ["tag"] 1%N "ann" "ann@forum"
                   "img" 0) 2%N down 1 1 1 in
  reachable p ∧
  upVote (vote p 2%N up 2 2 2) = upVote p + 1 ∧
  downVote (vote p 2%N up 2 2 2) = downVote p - 1.
Proof.
  intros p.
  assert (reachable p) as Hp by apply reach_vote, reach_create.
  destruct (vote_counter_arithmetic p 2%N up 2 2 2 Hp)
    as (_ & _ & Hup & Hdown).
  split; [exact Hp|]. split; [exact Hup|exact Hdown].
Defined.

End VoteDetails.

(** ** The vote request: failures, the answer, and what is left alone *)
Section VoteRequestDetails.
Import PostModel VoteSpec PostController.

(** X3. A [votePost] request that is answered with a failure has written
    nothing; a body without a vote type "up" or "down" gets 400, and a
    valid vote type on an id with no post gets 404. *)
Theorem votePost_failure_writes_nothing (db : DB) (id : ObjectId)
    (voteType' : option string) (user : UserModel.User)
    (tVoted tActivity tSave : Date) :
  let out := votePost db id voteType' user tVoted tActivity tSave in
  (success out.2 = false → out.1 = db) ∧
  (parseVoteType voteType' = None →
   out = (db, failure 400 "Please provide valid vote type (up or down)")) ∧
  (is_Some (parseVoteType voteType') → posts db !! id = None →
   out = (db, failure 404 "Post not found")).
Proof.
  unfold votePost.
  destruct (parseVoteType voteType') as [vt|]; simpl.
  - destruct (posts db !! id) as [p|]; simpl.
    + split; [|split; [done|by intros _ ?]].
      repeat case_bool_decide; simpl; done.
    + done.
  - split; [done|]. split; [done|]. by intros [? ?].
Qed.

(** X4. The answer of a successful [votePost] reports what was stored:
    its [upVote], [downVote] and [voteDifference] are those of the post
    now in the store, and its [userVote] is the vote the store now records
    for the user. *)
Theorem votePost_answer_matches_store (db : DB) (id : ObjectId)
    (voteType' : option string) (user : UserModel.User)
    (tVoted tActivity tSave : Date) :
  let out := votePost db id voteType' user tVoted tActivity tSave in
  success out.2 = true →
  ∃ q d, posts out.1 !! id = Some q ∧ data out.2 = Some d ∧
         data_upVote d = upVote q ∧ data_downVote d = downVote q ∧
         data_voteDifference d = upVote q - downVote q ∧
         data_userVote d = getUserVote q (UserModel._id user).
Proof.
  unfold votePost.
  destruct (parseVoteType voteType') as [vt|]; simpl; [|done].
  destruct (posts db !! id) as [p|]; simpl; [|done].
  case_bool_decide; simpl; [done|].
  case_bool_decide; simpl; intros _; rewrite lookup_insert_eq.
  - eexists _, _. repeat split; try done.
    simpl. by rewrite getUserVote_removeVote.
  - eexists _, _. repeat split; try done.
    simpl. by rewrite getUserVote_vote.
Qed.

Lemma votePost_answer_matches_store_witness :
  let p := vote (create 10%N "title" "text" ["tag"] 1%N "ann" "ann@forum"
                   "img" 0) 3%N down 1 1 1 in
  let db := {| posts := {[ 10%N := p ]}; comments := ∅; users := ∅ |} in
  let user := UserModel.create 2%N "bob" "bob@forum" "hash" "img" 0 0 in
  let out := votePost db 10%N (Some "up") user 2 2 2 in
  ∃ q d, posts out.1 !! 10%N = Some q ∧ data out.2 = Some d ∧
         data_upVote d = upVote q ∧
         data_userVote d = getUserVote q 2%N.
Proof.
  intros p db user out.
  destruct (votePost_answer_matches_store db 10%N (Some "up") user 2 2 2)
    as (q & d & Hq & Hd & Hup & _ & _ & Hvote); [reflexivity|].
  exists q, d. split; [exact Hq|]. split; [exact Hd|].
  split; [exact Hup|exact Hvote].
Defined.

(** X5. [votePost] writes to the post it names and to nothing else: every
    other post, the comments and the users are as before, and of the post
    itself the title, description, author, tags, visibility, active flag
    and view count are as before. *)
Theorem votePost_frame (db : DB) (id : ObjectId) (voteType' : option string)
    (user : UserModel.User) (tVoted tActivity tSave : Date) :
  let out := votePost db id voteType' user tVoted tActivity tSave in
  (∀ j, j ≠ id → posts out.1 !! j = posts db !! j) ∧
  comments out.1 = comments db ∧ users out.1 = users db ∧
  (∀ p, posts db !! id = Some p →
        ∃ q, posts out.1 !! id = Some q ∧
             title q = title p ∧ description q = description p ∧
             author q = author p ∧ tags q = tags p ∧
             visibility q = visibility p ∧ isActive q = isActive p ∧
             views q = views p).
Proof.
  unfold votePost.
  destruct (parseVoteType voteType') as [vt|]; simpl; [|by eauto 12].
  destruct (posts db !! id) as [p|] eqn:Hp; simpl; [|done].
  case_bool_decide; simpl.
  { split; [done|]. split; [done|]. split; [done|].
    intros ? [= <-]. eauto 12. }
  case_bool_decide; simpl.
  - split; [by intros j Hj; rewrite lookup_insert_ne|].
    split; [done|]. split; [done|].
    intros ? [= <-]. rewrite lookup_insert_eq. eexists. split; [done|].
    unfold removeVote, save, preSave. by case_bool_decide.
  - split; [by intros j Hj; rewrite lookup_insert_ne|].
    split; [done|]. split; [done|].
    intros ? [= <-]. rewrite lookup_insert_eq. eexists. split; [done|].
    unfold vote, save, preSave. by case_bool_decide; destruct vt.
Qed.

End VoteRequestDetails.

(** ** Reports: status updates, the two moderation paths, who may report *)
Section ReportDetails.
Import CommentModel CommentSpec AdminController.

Lemma setStatusById_None reportId status' rs :
  setStatusById reportId status' rs = None ↔
  reportId ∉ Report._id <$> rs.
Proof.
  induction rs as [|r rs IH]; simpl.
  - split; [intros _; apply not_elem_of_nil|done].
  - rewrite not_elem_of_cons. case_bool_decide as Hr.
    + split; [done|]. by intros [? _].
    + rewrite fmap_None, IH. split; [by intros ?; split|by intros [_ ?]].
Qed.

Lemma setStatusById_Some reportId status' rs rs' :
  setStatusById reportId status' rs = Some rs' →
  length rs' = length rs ∧
  Report.status <$> find (λ r, Report._id r = reportId) rs' = Some status' ∧
  (∀ r, r ∈ rs → Report._id r ≠ reportId → r ∈ rs').
Proof.
  revert rs'. induction rs as [|r rs IH]; intros rs'; simpl; [done|].
  case_bool_decide as Hr.
  - intros [= <-]. simpl. rewrite decide_True by done.
    split; [done|]. split; [done|].
    intros r' [->|Hin]%elem_of_cons Hne; [done|]. by right.
  - destruct (setStatusById reportId status' rs) as [rs0|]; simpl; [|done].
    intros [= <-]. destruct (IH rs0 eq_refl) as (Hlen & Hfind & Hrest).
    simpl. rewrite decide_False by done.
    split; [by rewrite Hlen|]. split; [done|].
    intros r' [->|Hin]%elem_of_cons Hne; [by left|]. right. by apply Hrest.
Qed.

Lemma updateReportStatus_not_found c reportId status' :
  reportId ∉ Report._id <$> reports c →
  updateReportStatus c reportId status' =
    (c, Some (JsError "Report not found")).
Proof.
  unfold updateReportStatus. intros Hno.
  apply (setStatusById_None reportId status') in Hno. by rewrite Hno.
Qed.

(** X6. [updateReportStatus] with an id that no report of the comment
    carries throws "Report not found" and leaves the comment as it was;
    with an id that one carries it saves, sets the status of the first
    report with that id, and keeps the number of reports, their reporters
    and every report with another id. *)
Theorem updateReportStatus_spec (c : Comment) (reportId : ObjectId)
    (status' : ReportStatus.t) :
  (reportId ∉ Report._id <$> reports c →
   updateReportStatus c reportId status' =
     (c, Some (JsError "Report not found"))) ∧
  (reportId ∈ Report._id <$> reports c →
   ∃ c', updateReportStatus c reportId status' = (c', None) ∧
         length (reports c') = length (reports c) ∧
         reporters c' = reporters c ∧
         Report.status <$>
           find (λ r, Report._id r = reportId) (reports c') = Some status' ∧
         ∀ r, r ∈ reports c → Report._id r ≠ reportId → r ∈ reports c').
Proof.
  split; [apply updateReportStatus_not_found|].
  unfold updateReportStatus. intros Hin.
  destruct (setStatusById reportId status' (reports c)) as [rs|] eqn:Hrs.
  - destruct (setStatusById_Some _ _ _ _ Hrs) as (Hlen & Hfind & Hrest).
    eexists. split; [done|]. simpl. unfold reporters. simpl.
    split; [done|]. split; [by eapply setStatusById_reporters|]. done.
  - by apply setStatusById_None in Hrs.
Qed.

Lemma sweepPending_Forall2 reportStatus rs :
  Forall2 (λ r r',
             Report._id r' = Report._id r ∧
             Report.reportedBy r' = Report.reportedBy r ∧
             Report.feedback r' = Report.feedback r ∧
             (Report.status r = ReportStatus.pending →
              Report.status r' = reportStatus) ∧
             (Report.status r ≠ ReportStatus.pending → r' = r))
          rs (sweepPending reportStatus rs).
Proof.
  unfold sweepPending. induction rs as [|r rs IH]; simpl; constructor; [|done].
  case_bool_decide; simpl; done.
Qed.

Lemma sweepPending_no_pending a rs :
  filter (λ report, Report.status report = ReportStatus.pending)
         (sweepPending (reportStatusFor a) rs) = [].
Proof.
  unfold sweepPending. induction rs as [|r rs IH]; [done|].
  rewrite fmap_cons, filter_cons, IH.
  case_decide as Hp; [|done].
  case_bool_decide; simpl in Hp; [by destruct a|done].
Qed.

(** X7. [handleReportedComment] with a valid action and no [reportId], on
    a stored comment, answers 200 and leaves no pending report on the
    stored comment: each report that was pending has the report status of
    the action, every other report is as it was. *)
Theorem handleReportedComment_sweeps (db : DB) (id : ObjectId) (c : Comment)
    (action : option string) (a : Action) (user : UserModel.User) :
  parseAction action = Some a →
  comments db !! id = Some c →
  let out := handleReportedComment db id action None user in
  ∃ c' r, out.2 = Responded r ∧ status r = 200%nat ∧ data r = Some c' ∧
          comments out.1 !! id = Some c' ∧
          pendingReportsCount c' = 0%nat ∧
          Forall2 (λ r r',
                     Report._id r' = Report._id r ∧
                     Report.reportedBy r' = Report.reportedBy r ∧
                     Report.feedback r' = Report.feedback r ∧
                     (Report.status r = ReportStatus.pending →
                      Report.status r' = reportStatusFor a) ∧
                     (Report.status r ≠ ReportStatus.pending → r' = r))
                  (reports c) (reports c').
Proof.
  intros Ha Hc. unfold handleReportedComment. rewrite Ha, Hc. simpl.
  rewrite lookup_insert_eq. eexists _, _.
  split; [done|]. split; [done|]. split; [done|]. split; [done|].
  unfold pendingReportsCount. simpl.
  assert (reports (if bool_decide (moderationStatusFor a =
                                    ModerationStatus.removed)
                   then set_isActive false
                          (set_moderationStatus (moderationStatusFor a) c)
                   else set_moderationStatus (moderationStatusFor a) c)
          = reports c) as -> by by case_bool_decide.
  split; [by rewrite sweepPending_no_pending|].
  apply sweepPending_Forall2.
Qed.

Lemma handleReportedComment_sweeps_witness :
  let c0 := (create 20%N 10%N "title" "well said" 1%N "ann" "ann@forum").1 in
  let c1 := (addReport c0 2%N "False information" 31%N 5).1 in
  let db := {| posts := ∅; comments := {[ 20%N := c1 ]}; users := ∅ |} in
  let admin := UserModel.create 9%N "root" "root@forum" "hash" "img" 0 0 in
  ∃ c', comments (handleReportedComment db 20%N (Some "approve") None
                    admin).1 !! 20%N = Some c' ∧
        pendingReportsCount c' = 0%nat.
Proof.
  intros c0 c1 db admin.
  destruct (handleReportedComment_sweeps db 20%N c1 (Some "approve") approve
              admin) as (c' & r & _ & _ & _ & Hc' & Hpending & _);
    [reflexivity|reflexivity|].
  exists c'. split; [exact Hc'|exact Hpending].
Defined.

(** X8. [handleReportedComment] with a valid action and a [reportId] that
    no report of the stored comment carries fails with "Report not found"
    after the moderation has been saved: the error goes to [next], and the
    store already holds the comment with the moderation status of the
    action (inactive for "remove"), its reports untouched. *)
Theorem handleReportedComment_unknown_report (db : DB) (id : ObjectId)
    (c : Comment) (action : option string) (a : Action)
    (reportId : ObjectId) (user : UserModel.User) :
  parseAction action = Some a →
  comments db !! id = Some c →
  reportId ∉ Report._id <$> reports c →
  let out := handleReportedComment db id action (Some reportId) user in
  out.2 = Forwarded (JsError "Report not found") ∧
  ∃ c', comments out.1 !! id = Some c' ∧
        moderationStatus c' = moderationStatusFor a ∧
        (a = remove → isActive c' = false) ∧
        reports c' = reports c.
Proof.
  intros Ha Hc Hno. unfold handleReportedComment. rewrite Ha, Hc.
  unfold moderate. rewrite save_true.
  rewrite updateReportStatus_not_found by (simpl; by case_bool_decide).
  simpl. split; [done|]. rewrite lookup_insert_eq. eexists. split; [done|].
  split; [by case_bool_decide|]. split; [by intros ->|by case_bool_decide].
Qed.

End ReportDetails.

Section ReportDetailsMore.
Import CommentModel CommentSpec AdminController.

Lemma handleReportedComment_unknown_report_witness :
  let c0 := (create 20%N 10%N "title" "well said" 1%N "ann" "ann@forum").1 in
  let c1 := (addReport c0 2%N "False information" 31%N 5).1 in
  let db := {| posts := ∅; comments := {[ 20%N := c1 ]}; users := ∅ |} in
  let admin := UserModel.create 9%N "root" "root@forum" "hash" "img" 0 0 in
  let out := handleReportedComment db 20%N (Some "remove") (Some 77%N) admin in
  out.2 = Forwarded (JsError "Report not found") ∧
  ∃ c', comments out.1 !! 20%N = Some c' ∧ isActive c' = false.
Proof.
  intros c0 c1 db admin out.
  destruct (handleReportedComment_unknown_report db 20%N c1 (Some "remove")
              remove 77%N admin) as (Hout & c' & Hc' & _ & Hactive & _).
  - reflexivity.
  - reflexivity.
  - vm_compute. by intros [[=]|[]%elem_of_nil]%elem_of_cons.
  - split; [exact Hout|]. exists c'. split; [exact Hc'|by apply Hactive].
Defined.

(** X9. [bulkActionReportedComments] answers 400 and writes nothing when
    the body has no non-empty array of ids or no valid action. Otherwise
    it answers 200; every stored comment named in the array gets the
    moderation status of the action and the report status of the action on
    every one of its reports, pending or not, with its reporters, active
    flag, [isReported] flag and content as before; every other comment,
    and every post and user, is as before. *)
Theorem bulkAction_spec (db : DB) (commentIds : option (list ObjectId))
    (action : option string) :
  let out := bulkActionReportedComments db commentIds action in
  (commentIds = None ∨ commentIds = Some [] ∨ parseAction action = None →
   out.1 = db ∧ status out.2 = 400%nat ∧ success out.2 = false) ∧
  (∀ ids a, commentIds = Some ids → ids ≠ [] → parseAction action = Some a →
     status out.2 = 200%nat ∧
     posts out.1 = posts db ∧ users out.1 = users db ∧
     ∀ id, match comments db !! id with
           | None => comments out.1 !! id = None
           | Some c =>
               if bool_decide (id ∈ ids)
               then ∃ c', comments out.1 !! id = Some c' ∧
                          moderationStatus c' = moderationStatusFor a ∧
                          Forall (λ r, Report.status r = reportStatusFor a)
                                 (reports c') ∧
                          reporters c' = reporters c ∧
                          isActive c' = isActive c ∧
                          isReported c' = isReported c ∧
                          content c' = content c
               else comments out.1 !! id = Some c
           end).
Proof.
  unfold bulkActionReportedComments. split.
  - intros [->|[->|Hno]]; [done..|].
    rewrite Hno. by destruct commentIds as [[|??]|].
  - intros ids a -> Hids Ha. destruct ids as [|i ids]; [done|].
    rewrite Ha. simpl. split; [done|]. split; [done|]. split; [done|].
    intros id. rewrite map_lookup_imap.
    destruct (comments db !! id) as [c|]; simpl; [|done].
    case_bool_decide; [|done].
    eexists. split; [done|]. simpl. split; [done|].
    split; [by apply Forall_fmap, Forall_true|].
    unfold reporters. simpl. by rewrite <- list_fmap_compose.
Qed.

(** X10. Once [handleReportedComment] has handled a stored comment with
    the action "remove", with or without a [reportId], [reportComment]
    with a non-empty feedback on that comment is refused with 400
    "Cannot report an inactive comment" and writes nothing. *)
Theorem removed_comment_cannot_be_reported (db : DB) (id : ObjectId)
    (c : Comment) (reportId : option ObjectId) (admin user : UserModel.User)
    (feedback' : option string) (rid : ObjectId) (now : Date) :
  comments db !! id = Some c →
  is_Some (truthy feedback') →
  let db1 := (handleReportedComment db id (Some "remove") reportId admin).1 in
  CommentController.reportComment db1 id feedback' user rid now =
    (db1, Responded (failure 400 "Cannot report an inactive comment")).
Proof.
  intros Hc [fb Hfb] db1.
  destruct (handleReportedComment_moderates db id c (Some "remove") remove
              reportId admin eq_refl Hc) as (c' & Hc' & _ & Hinactive).
  unfold CommentController.reportComment. fold db1 in Hc'.
  rewrite Hfb, Hc'. rewrite Hinactive by done. done.
Qed.

Lemma removed_comment_cannot_be_reported_witness :
  let c0 := (create 20%N 10%N "title" "well said" 1%N "ann" "ann@forum").1 in
  let db := {| posts := ∅; comments := {[ 20%N := c0 ]}; users := ∅ |} in
  let admin := UserModel.create 9%N "root" "root@forum" "hash" "img" 0 0 in
  let user := UserModel.create 2%N "bob" "bob@forum" "hash" "img" 0 0 in
  let db1 := (handleReportedComment db 20%N (Some "remove") None admin).1 in
  CommentController.reportComment db1 20%N (Some "False information") user
    31%N 5 =
    (db1, Responded (failure 400 "Cannot report an inactive comment")).
Proof.
  intros c0 db admin user db1.
  apply (removed_comment_cannot_be_reported db 20%N c0 None admin user
           (Some "False information") 31%N 5); [reflexivity|by eexists].
Defined.

Lemma step_reporters_grow c c' :
  step c c' →
  reporters c' = reporters c ∨
  (∃ u, (u ∉ reporters c) ∧ reporters c' = reporters c ++ [u]).
Proof.
  intros Hstep.
  destruct Hstep as [c u fb rid now c' H | c rid st c' H | c st m c' H
                     | c st c' H | c co c' H | c c' H | c ms rs].
  - apply addReport_fulfilled in H as [Hfresh ->]. right. exists u. split.
    + apply (find_None (λ report, Report.reportedBy report = u)) in Hfresh.
      rewrite Forall_forall in Hfresh.
      intros (r & -> & Hr)%list_elem_of_fmap. by apply (Hfresh r).
    + unfold reporters. simpl. by rewrite fmap_app.
  - left. unfold updateReportStatus in H.
    destruct (setStatusById _ _ _) as [rs|] eqn:Hrs; [|done].
    apply save_fulfilled in H as ->. unfold reporters. simpl.
    by eapply setStatusById_reporters.
  - left. unfold moderate in H. apply save_fulfilled in H as ->.
    unfold reporters. simpl. by case_bool_decide.
  - left. unfold AdminController.updatePendingReports in H.
    apply save_fulfilled in H as ->. unfold reporters. simpl.
    unfold AdminController.sweepPending. rewrite <- list_fmap_compose.
    apply list_fmap_ext. intros i r _. simpl. by case_bool_decide.
  - left. unfold CommentController.updateContent in H.
    by apply save_fulfilled in H as ->.
  - left. unfold CommentController.softDelete in H.
    by apply save_fulfilled in H as ->.
  - left. unfold reporters. simpl. by rewrite <- list_fmap_compose.
Qed.

(** X11. In every comment the store can hold, no user appears twice among
    the reporters: a comment carries at most one report per user. *)
Theorem reporters_NoDup (c : Comment) :
  reachable c → NoDup (reporters c).
Proof.
  intros (c0 & Hc0 & Hsteps).
  assert (NoDup (reporters c0)) as H0.
  { destruct Hc0 as (? & ? & ? & ? & ? & ? & ? & Hc0).
    unfold create in Hc0. apply save_fulfilled in Hc0 as ->. constructor. }
  clear Hc0. induction Hsteps as [|c0 c1 c Hstep _ IH]; [done|].
  apply IH. destruct (step_reporters_grow _ _ Hstep) as [->|(u & Hu & ->)];
    [done|].
  apply NoDup_app. split; [done|]. split; [|apply NoDup_singleton].
  by intros x Hx ->%list_elem_of_singleton.
Qed.

Lemma reporters_NoDup_witness :
  let c0 := (create 20%N 10%N "title" "well said" 1%N "ann" "ann@forum").1 in
  let c1 := (addReport c0 2%N "False information" 31%N 5).1 in
  let c2 := (addReport c1 3%N "Spam or promotional content" 32%N 6).1 in
  reachable c2 ∧ NoDup (reporters c2).
Proof.
  intros c0 c1 c2.
  assert (reachable c2) as Hc2.
  { exists c0. split.
    - by exists 20%N, 10%N, "title", "well said", 1%N, "ann", "ann@forum".
    - apply (rtc_l _ _ c1);
        [by apply (step_addReport c0 2%N "False information" 31%N 5)|].
      apply rtc_once.
      by apply (step_addReport c1 3%N "Spam or promotional content" 32%N 6). }
  split; [exact Hc2|]. exact (reporters_NoDup c2 Hc2).
Defined.

(** X12. [reportComment] on an active stored comment, by a user who has
    not reported it, with a non-empty feedback: if the feedback is one of
    the five of the schema the answer is 200 and the stored comment has the
    user as its last reporter, one more pending report and [isReported]
    set; if it is not, the validation error goes to [next] and nothing is
    written. *)
Theorem reportComment_feedback (db : DB) (id : ObjectId) (c : Comment)
    (feedback' : option string) (fb : string) (user : UserModel.User)
    (rid : ObjectId) (now : Date) :
  truthy feedback' = Some fb →
  comments db !! id = Some c →
  isActive c = true →
  UserModel._id user ∉ reporters c →
  let out := CommentController.reportComment db id feedback' user rid now in
  (validFeedback fb = true →
   ∃ c' r, out.2 = Responded r ∧ status r = 200%nat ∧
           comments out.1 !! id = Some c' ∧
           reporters c' = reporters c ++ [UserModel._id user] ∧
           pendingReportsCount c' = S (pendingReportsCount c) ∧
           isReported c' = true) ∧
  (validFeedback fb = false →
   out = (db, Forwarded (ValidationError "reports.feedback"))).
Proof.
  intros Hfb Hc Hactive Hnew out. unfold out, CommentController.reportComment.
  rewrite Hfb, Hc, Hactive. simpl. unfold addReport.
  assert (find (λ report, Report.reportedBy report = UserModel._id user)
               (reports c) = None) as ->.
  { apply find_None, Forall_forall. intros r Hr Heq. apply Hnew.
    apply list_elem_of_fmap. eauto. }
  split; intros ->; simpl; [|done].
  rewrite lookup_insert_eq. eexists _, _.
  split; [done|]. split; [done|]. split; [done|].
  unfold reporters, pendingReportsCount. simpl.
  rewrite fmap_app, filter_app, !length_app. simpl.
  split; [done|]. split; [lia|].
  apply Nat.ltb_lt. lia.
Qed.

Lemma reportComment_feedback_witness :
  let c0 := (create 20%N 10%N "title" "well said" 1%N "ann" "ann@forum").1 in
  let db := {| posts := ∅; comments := {[ 20%N := c0 ]}; users := ∅ |} in
  let user := UserModel.create 2%N "bob" "bob@forum" "hash" "img" 0 0 in
  CommentController.reportComment db 20%N (Some "I do not like it") user
    31%N 5 = (db, Forwarded (ValidationError "reports.feedback")).
Proof.
  intros c0 db user.
  destruct (reportComment_feedback db 20%N c0 (Some "I do not like it")
              "I do not like it" user 31%N 5) as [_ Hbad].
  - reflexivity.
  - reflexivity.
  - reflexivity.
  - vm_compute. by intros []%elem_of_nil.
  - apply Hbad. reflexivity.
Defined.

End ReportDetailsMore.

(** ** Membership: what an upgrade buys *)
Section MembershipDetails.
Import UserModel MembershipSpec.

Lemma upgradeMembership_stores db reqUser u dateNow tEarned :
  users db !! _id reqUser = Some u → membership u ≠ gold →
  users (UserController.upgradeMembership db reqUser dateNow tEarned).1
    !! _id reqUser = Some (upgradeToGold u dateNow tEarned) ∧
  posts (UserController.upgradeMembership db reqUser dateNow tEarned).1
    = posts db.
Proof.
  intros Hu Hm. unfold UserController.upgradeMembership.
  rewrite Hu, bool_decide_eq_false_2 by done. simpl.
  by rewrite lookup_insert_eq.
Qed.

Lemma membership_upgradeToGold u dateNow tEarned :
  membership (upgradeToGold u dateNow tEarned) = gold ∧
  membershipExpiry (upgradeToGold u dateNow tEarned) =
    Some (dateNow + 31536000000).
Proof. unfold upgradeToGold. by destruct (hasGoldBadge _). Qed.

(** X13. After [upgradeMembership] has upgraded a user, a second
    [upgradeMembership] request of that user, at whatever time, is refused
    with 400 and writes nothing: a browser that sends the request twice
    does not move the expiry. *)
Theorem upgradeMembership_twice (db : DB) (reqUser reqUser' u : User)
    (dateNow tEarned dateNow' tEarned' : Date) :
  users db !! _id reqUser = Some u →
  membership u ≠ gold →
  _id reqUser' = _id reqUser →
  let db1 :=
    (UserController.upgradeMembership db reqUser dateNow tEarned).1 in
  UserController.upgradeMembership db1 reqUser' dateNow' tEarned' =
    (db1, Responded (failure 400 "User already has gold membership")).
Proof.
  intros Hu Hm Hid db1.
  destruct (upgradeMembership_stores db reqUser u dateNow tEarned Hu Hm)
    as [Hu1 _]. fold db1 in Hu1.
  unfold UserController.upgradeMembership at 1. rewrite Hid, Hu1.
  destruct (membership_upgradeToGold u dateNow tEarned) as [-> _].
  by rewrite bool_decide_eq_true_2.
Qed.

Lemma upgradeMembership_twice_witness :
  let u := create 2%N "bob" "bob@forum" "hash" "img" 0 0 in
  let db := {| posts := ∅; comments := ∅; users := {[ 2%N := u ]} |} in
  let db1 := (UserController.upgradeMembership db u 100 101).1 in
  UserController.upgradeMembership db1 u 200 201 =
    (db1, Responded (failure 400 "User already has gold membership")).
Proof.
  intros u db db1.
  apply (upgradeMembership_twice db u u u 100 101 200 201);
    [reflexivity|done|reflexivity].
Defined.

(** X14. The user [upgradeMembership] stores has effective gold
    membership exactly at the times before [dateNow] plus 365 days: until
    then [canPost] answers true for that user whatever the number of
    active posts, and from then on it answers (number < 5) again. *)
Theorem upgrade_opens_posting_for_a_year (db : DB) (reqUser u : User)
    (dateNow tEarned : Date) :
  users db !! _id reqUser = Some u →
  membership u ≠ gold →
  let db1 :=
    (UserController.upgradeMembership db reqUser dateNow tEarned).1 in
  ∃ u1, users db1 !! _id reqUser = Some u1 ∧
        ∀ now,
          hasMembership u1 now = bool_decide (now < dateNow + 31536000000) ∧
          AuthController.CanPostData.canPost
            <$> data (AuthController.canPost db1 u1 now).2 =
            Some (bool_decide (now < dateNow + 31536000000) ||
                  (AuthController.countActivePosts db (_id u1) <? 5)%nat).
Proof.
  intros Hu Hm db1.
  destruct (upgradeMembership_stores db reqUser u dateNow tEarned Hu Hm)
    as [Hu1 Hposts]. fold db1 in Hu1, Hposts.
  exists (upgradeToGold u dateNow tEarned). split; [done|]. intros now.
  assert (hasMembership (upgradeToGold u dateNow tEarned) now =
          bool_decide (now < dateNow + 31536000000)) as Hhas.
  { unfold hasMembership.
    destruct (membership_upgradeToGold u dateNow tEarned) as [-> ->].
    by rewrite bool_decide_eq_true_2. }
  split; [done|]. simpl. rewrite Hhas.
  unfold AuthController.countActivePosts. by rewrite Hposts.
Qed.

Lemma upgrade_opens_posting_for_a_year_witness :
  let u := create 2%N "bob" "bob@forum" "hash" "img" 0 0 in
  let db := {| posts := ∅; comments := ∅; users := {[ 2%N := u ]} |} in
  let db1 := (UserController.upgradeMembership db u 100 101).1 in
  ∃ u1, users db1 !! 2%N = Some u1 ∧
        hasMembership u1 31536000099 = true ∧
        hasMembership u1 31536000100 = false.
Proof.
  intros u db db1.
  destruct (upgrade_opens_posting_for_a_year db u u 100 101)
    as (u1 & Hu1 & Hnow); [reflexivity|done|].
  exists u1. split; [exact Hu1|].
  split; [exact (proj1 (Hnow 31536000099))|exact (proj1 (Hnow 31536000100))].
Defined.

End MembershipDetails.

(** ** Reading and deleting a post *)
Section PostHandlerDetails.
Import PostModel PostHandlers.

Lemma incrementViews_fields p tSave :
  views (incrementViews p tSave) = views p + 1 ∧
  voters (incrementViews p tSave) = voters p ∧
  upVote (incrementViews p tSave) = upVote p ∧
  downVote (incrementViews p tSave) = downVote p ∧
  lastActivity (incrementViews p tSave) = lastActivity p ∧
  isActive (incrementViews p tSave) = isActive p.
Proof.
  unfold incrementViews, save, preSave. simpl.
  rewrite bool_decide_eq_false_2; [done|]. by intros [?|?].
Qed.

(** X15. [getPost] shows a stored post when it is not private, or when
    the signed-in user is its author and the author's document exists.
    It then counts one view, leaves the votes and [lastActivity] alone,
    and reports the new view count and the vote recorded for the reader.
    In every other case it writes nothing, and when it answers, it answers
    403: a refused read is not counted as a view. *)
Theorem getPost_counts_views (db : DB) (id : ObjectId) (p : Post)
    (reqUser : option UserModel.User) (tSave : Date) :
  posts db !! id = Some p →
  let out := getPost db id reqUser tSave in
  let allowed :=
    visibility p ≠ private ∨
    ∃ u, reqUser = Some u ∧ UserModel._id u = author p ∧
         is_Some (users db !! author p) in
  (allowed →
   ∃ q r d, posts out.1 !! id = Some q ∧ out.2 = Responded r ∧
            status r = 200%nat ∧ data r = Some d ∧
            views q = views p + 1 ∧ data_views d = views p + 1 ∧
            voters q = voters p ∧ upVote q = upVote p ∧
            downVote q = downVote p ∧ lastActivity q = lastActivity p ∧
            data_userVote d =
              (reqUser ≫= λ u, getUserVote p (UserModel._id u))) ∧
  (¬ allowed →
   out.1 = db ∧ ∀ r, out.2 = Responded r → status r = 403%nat).
Proof.
  intros Hp out allowed. unfold out, getPost. rewrite Hp.
  destruct (incrementViews_fields p tSave)
    as (Hviews & Hvoters & Hup & Hdown & Hlast & _).
  assert (∃ q r d,
            posts (showPost db id p reqUser tSave).1 !! id = Some q ∧
            (showPost db id p reqUser tSave).2 = Responded r ∧
            status r = 200%nat ∧ data r = Some d ∧
            views q = views p + 1 ∧ data_views d = views p + 1 ∧
            voters q = voters p ∧ upVote q = upVote p ∧
            downVote q = downVote p ∧ lastActivity q = lastActivity p ∧
            data_userVote d =
              (reqUser ≫= λ u, getUserVote p (UserModel._id u))) as Hshow.
  { unfold showPost. simpl. rewrite lookup_insert_eq.
    eexists _, _, _. repeat split; try done.
    simpl. destruct reqUser as [u|]; simpl; [|done].
    unfold getUserVote. by rewrite Hvoters. }
  case_bool_decide as Hpriv.
  - destruct reqUser as [u|].
    + unfold populateAuthor.
      destruct (users db !! author p) as [a|] eqn:Ha; simpl.
      * case_bool_decide as Hne.
        -- split; [|by split; [|intros ? [= <-]]].
           intros [?|(u' & [= <-] & Heq & _)]; congruence.
        -- simpl in Hne. split; [done|].
           intros Hno. destruct Hno. right. exists u. eauto.
      * split; [|done].
        intros [?|(u' & _ & _ & [? [=]])]; congruence.
    + simpl. split; [|by split; [|intros ? [= <-]]].
      intros [?|(u' & [=] & _)]; congruence.
  - split; [done|]. intros Hno. destruct Hno. by left.
Qed.

Lemma getPost_counts_views_witness :
  let p := vote (create 10%N "title" "text" ["tag"] 1%N "ann" "ann@forum"
                   "img" 0) 3%N down 1 1 1 in
  let db := {| posts := {[ 10%N := p ]}; comments := ∅; users := ∅ |} in
  ∃ q, posts (getPost db 10%N None 5).1 !! 10%N = Some q ∧
       views q = 1 ∧ downVote q = 1.
Proof.
  intros p db.
  destruct (getPost_counts_views db 10%N p None 5) as [Hshown _];
    [reflexivity|].
  destruct Hshown as (q & r & d & Hq & _ & _ & _ & Hviews & _ & _ & _ &
                      Hdown & _); [by left|].
  exists q. split; [exact Hq|]. split; [exact Hviews|exact Hdown].
Defined.

Lemma softDelete_fields p tSave :
  isActive (PostController.softDelete p tSave) = false ∧
  author (PostController.softDelete p tSave) = author p ∧
  voters (PostController.softDelete p tSave) = voters p ∧
  upVote (PostController.softDelete p tSave) = upVote p ∧
  downVote (PostController.softDelete p tSave) = downVote p.
Proof.
  unfold PostController.softDelete, save, preSave. simpl.
  rewrite bool_decide_eq_false_2; [done|]. by intros [?|?].
Qed.

(** X16. [deletePost] by the author or an admin, on a stored active post,
    answers 200 and keeps the post in the store, inactive, with its votes;
    the author's number of active posts, which [canPost] and [createPost]
    compare with 5, goes down by exactly one. *)
Theorem deletePost_frees_a_slot (db : DB) (id : ObjectId) (p : Post)
    (user : UserModel.User) (tSave : Date) :
  posts db !! id = Some p →
  isActive p = true →
  author p = UserModel._id user ∨
    UserModel.role user = UserModel.Role.admin →
  let out := deletePost db id user tSave in
  status out.2 = 200%nat ∧
  (∃ q, posts out.1 !! id = Some q ∧ isActive q = false ∧
        voters q = voters p ∧ upVote q = upVote p ∧
        downVote q = downVote p) ∧
  S (AuthController.countActivePosts out.1 (author p)) =
    AuthController.countActivePosts db (author p).
Proof.
  intros Hp Hactive Hmay out. unfold out, deletePost. rewrite Hp.
  rewrite bool_decide_eq_false_2 by (intros [? ?]; destruct Hmay; done).
  destruct (softDelete_fields p tSave)
    as (Hoff & Hauthor & Hvoters & Hup & Hdown).
  simpl. split; [done|]. rewrite lookup_insert_eq.
  split; [by eauto 10|].
  unfold AuthController.countActivePosts. simpl.
  rewrite map_filter_insert_False, map_filter_delete
    by (simpl; rewrite Hoff; by intros [_ ?]).
  rewrite map_size_delete_Some.
  - apply Nat.succ_pred. apply map_size_ne_0_lookup_2 with id.
    exists p. apply map_lookup_filter_Some. by split.
  - exists p. apply map_lookup_filter_Some. by split.
Qed.

Lemma deletePost_frees_a_slot_witness :
  let p := create 10%N "title" "text" ["tag"] 1%N "ann" "ann@forum" "img" 0 in
  let db := {| posts := {[ 10%N := p ]}; comments := ∅; users := ∅ |} in
  let ann := UserModel.create 1%N "ann" "ann@forum" "hash" "img" 0 0 in
  S (AuthController.countActivePosts (deletePost db 10%N ann 5).1 1%N) =
    AuthController.countActivePosts db 1%N.
Proof.
  intros p db ann.
  destruct (deletePost_frees_a_slot db 10%N p ann 5) as (_ & _ & Hcount);
    [reflexivity|reflexivity|by left|].
  exact Hcount.
Defined.

(** X17. The route DELETE /api/posts/:id (protect, checkPostOwnership,
    deletePost) answers with success exactly when the token is verified,
    the user it names is stored and active, the post is stored, and the
    user is an admin or the post's author; otherwise nothing is written.
    The ownership test inside [deletePost] never fires behind the
    middleware. *)
Theorem deletePostRoute_spec (db : DB) (token : AuthMiddleware.Token)
    (id : ObjectId) (tSave : Date) :
  let out := deletePostRoute db token id tSave in
  (success out.2 = true ↔
   ∃ uid u p, token = AuthMiddleware.Verified uid ∧
              users db !! uid = Some u ∧ UserModel.isActive u = true ∧
              posts db !! id = Some p ∧
              (UserModel.role u = UserModel.Role.admin ∨
               author p = UserModel._id u)) ∧
  (success out.2 = false → out.1 = db) ∧
  out.2 ≠ failure 403 "Not authorized to delete this post".
Proof.
  unfold deletePostRoute, AuthMiddleware.protect.
  destruct token as [|uid|errorName]; simpl.
  - split; [|done]. split; [done|]. by intros (? & ? & ? & [=] & _).
  - destruct (users db !! uid) as [u|] eqn:Hu; simpl.
    + destruct (UserModel.isActive u) eqn:Hactive; simpl.
      * unfold AuthMiddleware.checkPostOwnership, deletePost.
        destruct (posts db !! id) as [p|] eqn:Hp; simpl.
        -- case_bool_decide as Hown; simpl.
           ++ rewrite bool_decide_eq_false_2
                by (intros [? ?]; destruct Hown; done).
              simpl. split; [|done]. split; [|done].
              intros _. exists uid, u, p. by destruct Hown; eauto 10.
           ++ split; [|done]. split; [done|].
              intros (? & ? & ? & [= <-] & ? & _ & ? & Hown').
              simplify_eq. destruct Hown. by destruct Hown'; eauto.
        -- split; [|done]. split; [done|].
           by intros (? & ? & ? & _ & _ & _ & [=] & _).
      * split; [|done]. split; [done|].
        intros (? & ? & ? & [= <-] & ? & ? & _). congruence.
    + split; [|done]. split; [done|].
      intros (? & ? & ? & [= <-] & ? & _). congruence.
  - destruct (String.eqb errorName "JsonWebTokenError"),
      (String.eqb errorName "TokenExpiredError"); simpl;
      (split; [|done]); (split; [done|]);
      by intros (? & ? & ? & [=] & _).
Qed.

End PostHandlerDetails.

(** ** Writing, changing and deleting a comment *)
Section CommentHandlerDetails.
Import CommentModel CommentSpec CommentHandlers.

(** X18. A user who is neither the author of a stored comment nor an
    admin cannot change it: [updateComment] and [deleteComment] answer
    with a failure (403 when the request is otherwise well formed) and
    write nothing. *)
Theorem comment_of_another_user_is_safe (db : DB) (id : ObjectId)
    (c : Comment) (content' : option string) (user : UserModel.User) :
  comments db !! id = Some c →
  author c ≠ UserModel._id user →
  UserModel.role user ≠ UserModel.Role.admin →
  (updateComment db id content' user).1 = db ∧
  (∃ r, (updateComment db id content' user).2 = Responded r ∧
        success r = false ∧
        (is_Some (truthy content') → status r = 403%nat)) ∧
  deleteComment db id user =
    (db, Responded (failure 403 "Not authorized to delete this comment")).
Proof.
  intros Hc Hauthor Hrole. unfold updateComment, deleteComment.
  rewrite Hc, bool_decide_eq_true_2 by done.
  destruct (truthy content') as [text|]; simpl.
  - split; [done|]. split; [|done]. by eexists.
  - split; [done|]. split; [|done]. eexists. split; [done|].
    split; [done|]. by intros [? ?].
Qed.

Lemma comment_of_another_user_is_safe_witness :
  let c := (create 20%N 10%N "title" "well said" 1%N "ann" "ann@forum").1 in
  let db := {| posts := ∅; comments := {[ 20%N := c ]}; users := ∅ |} in
  let bob := UserModel.create 2%N "bob" "bob@forum" "hash" "img" 0 0 in
  (updateComment db 20%N (Some "not so") bob).1 = db ∧
  deleteComment db 20%N bob =
    (db, Responded (failure 403 "Not authorized to delete this comment")).
Proof.
  intros c db bob.
  destruct (comment_of_another_user_is_safe db 20%N c (Some "not so") bob)
    as (Hupdate & _ & Hdelete); [reflexivity|done|done|].
  split; [exact Hupdate|exact Hdelete].
Defined.

(** [jsLength] on the three kinds of text: ASCII, a code point of the
    basic plane, and one beyond it (a surrogate pair). *)
Example jsLength_examples :
  jsLength "abc" = 3%nat ∧
  (String.length "é" = 2%nat ∧ jsLength "é" = 1%nat) ∧
  (String.length "日" = 3%nat ∧ jsLength "日" = 1%nat) ∧
  (String.length "😀" = 4%nat ∧ jsLength "😀" = 2%nat).
Proof. by vm_compute. Qed.

(** X19. [updateComment] by the author or an admin with a content whose
    JavaScript length (UTF-16 code units) is 1 to 1000 stores the new
    content and leaves the comment's reports, [isReported], moderation
    status and active flag as they were (for a comment the store can
    hold): editing a reported or removed comment neither clears its
    reports nor brings it back. A content of greater length is a
    validation error and nothing is written. *)
Theorem updateComment_keeps_moderation (db : DB) (id : ObjectId)
    (c : Comment) (text : string) (user : UserModel.User) :
  comments db !! id = Some c →
  reachable c →
  author c = UserModel._id user ∨
    UserModel.role user = UserModel.Role.admin →
  text ≠ "" →
  let out := updateComment db id (Some text) user in
  ((jsLength text ≤ 1000)%nat →
   ∃ c', comments out.1 !! id = Some c' ∧ content c' = text ∧
         reports c' = reports c ∧ isReported c' = isReported c ∧
         moderationStatus c' = moderationStatus c ∧
         isActive c' = isActive c) ∧
  ((1000 < jsLength text)%nat →
   out = (db, Forwarded (ValidationError "content"))).
Proof.
  intros Hc Hreach Hmay Htext out. unfold out, updateComment. simpl.
  assert (String.eqb text "" = false) as Hne by by apply String.eqb_neq.
  rewrite Hne, Hc.
  rewrite bool_decide_eq_false_2 by (intros [? ?]; destruct Hmay; done).
  unfold CommentController.updateContent, validContent. rewrite Hne. simpl.
  split; intros Hlen.
  - rewrite (proj2 (Nat.leb_le _ _) Hlen). simpl. rewrite lookup_insert_eq.
    eexists. split; [done|]. simpl. repeat split; try done.
    pose proof (reachable_flagged c Hreach) as Hflag. unfold flagged in Hflag.
    destruct (reports c) as [|r rs], (isReported c); simpl; try done.
    + by destruct (proj1 Hflag).
    + symmetry. apply Hflag. done.
  - rewrite (proj2 (Nat.leb_gt _ _) Hlen). done.
Qed.

Lemma updateComment_keeps_moderation_witness :
  let c0 := (create 20%N 10%N "title" "well said" 1%N "ann" "ann@forum").1 in
  let c := (addReport c0 2%N "False information" 31%N 5).1 in
  let db := {| posts := ∅; comments := {[ 20%N := c ]}; users := ∅ |} in
  let ann := UserModel.create 1%N "ann" "ann@forum" "hash" "img" 0 0 in
  let text := String.concat "" (replicate 501 "é") in
  String.length text = 1002%nat ∧ jsLength text = 501%nat ∧
  ∃ c', comments (updateComment db 20%N (Some text) ann).1 !! 20%N
          = Some c' ∧
        content c' = text ∧ reports c' = reports c.
Proof.
  intros c0 c db ann text.
  split; [by vm_compute|]. split; [by vm_compute|].
  destruct (updateComment_keeps_moderation db 20%N c text ann)
    as [Hok _].
  - reflexivity.
  - exists c0. split.
    + by exists 20%N, 10%N, "title", "well said", 1%N, "ann", "ann@forum".
    + apply rtc_once.
      by apply (step_addReport c0 2%N "False information" 31%N 5).
  - by left.
  - by vm_compute.
  - destruct Hok as (c' & Hc' & Hcontent & Hreports & _);
      [vm_compute; lia|].
    exists c'. split; [exact Hc'|]. split; [exact Hcontent|exact Hreports].
Defined.

(** X20. [createComment] on a stored post that is public, or whose author
    is the user, with a content whose JavaScript length (UTF-16 code
    units) is 1 to 1000, answers 201 and stores under the new id a
    comment of that user on that post, active, approved, without reports
    and not reported, carrying the post's title; every other comment is
    as before. On a private post of somebody else it answers 403 and
    writes nothing. *)
Theorem createComment_spec (db : DB) (pid : ObjectId) (p : PostModel.Post)
    (text : string) (user : UserModel.User) (newId : ObjectId) :
  posts db !! pid = Some p →
  text ≠ "" →
  (jsLength text ≤ 1000)%nat →
  let out := createComment db (Some pid) (Some text) user newId in
  (PostModel.visibility p = PostModel.private ∧
   PostModel.author p ≠ UserModel._id user →
   out = (db, Responded (failure 403 "Cannot comment on private post"))) ∧
  (PostModel.visibility p ≠ PostModel.private ∨
   PostModel.author p = UserModel._id user →
   ∃ c r, out.2 = Responded r ∧ status r = 201%nat ∧ data r = Some c ∧
          comments out.1 !! newId = Some c ∧
          (∀ j, j ≠ newId → comments out.1 !! j = comments db !! j) ∧
          post c = pid ∧ postTitle c = PostModel.title p ∧
          author c = UserModel._id user ∧ content c = text ∧
          isActive c = true ∧ reports c = [] ∧ isReported c = false ∧
          moderationStatus c = ModerationStatus.approved).
Proof.
  intros Hp Htext Hlen out. unfold out, createComment. simpl.
  assert (String.eqb text "" = false) as Hne by by apply String.eqb_neq.
  rewrite Hne, Hp. split.
  - intros Hpriv. by rewrite bool_decide_eq_true_2.
  - intros Hmay.
    rewrite bool_decide_eq_false_2 by (intros [? ?]; destruct Hmay; done).
    unfold create, validContent.
    rewrite Hne, (proj2 (Nat.leb_le _ _) Hlen). simpl.
    eexists _, _. split; [done|]. split; [done|]. split; [done|].
    rewrite lookup_insert_eq. split; [done|].
    split; [by intros j Hj; rewrite lookup_insert_ne|]. done.
Qed.

Lemma createComment_spec_witness :
  let p := PostModel.create 10%N "title" "text" ["tag"] 1%N "ann"
             "ann@forum" "img" 0 in
  let db := {| posts := {[ 10%N := p ]}; comments := ∅; users := ∅ |} in
  let bob := UserModel.create 2%N "bob" "bob@forum" "hash" "img" 0 0 in
  let text := String.concat "" (replicate 334 "日") in
  String.length text = 1002%nat ∧ jsLength text = 334%nat ∧
  ∃ c, comments (createComment db (Some 10%N) (Some text) bob
                   20%N).1 !! 20%N = Some c ∧
       author c = 2%N ∧ content c = text ∧ reports c = [].
Proof.
  intros p db bob text.
  split; [by vm_compute|]. split; [by vm_compute|].
  destruct (createComment_spec db 10%N p text bob 20%N) as [_ Hok];
    [reflexivity|by vm_compute|vm_compute; lia|].
  destruct Hok as (c & r & _ & _ & _ & Hc & _ & _ & _ & Hauthor & Hcontent &
                   _ & Hreports & _); [by left|].
  exists c. split; [exact Hc|]. split; [exact Hauthor|].
  split; [exact Hcontent|exact Hreports].
Defined.

End CommentHandlerDetails.

(** ** Roles and activation *)
Section UserAdminDetails.
Import UserModel UserAdmin AuthMiddleware.

Lemma DB_eq (db1 db2 : DB) :
  posts db1 = posts db2 → comments db1 = comments db2 →
  users db1 = users db2 → db1 = db2.
Proof. destruct db1, db2. simpl. by intros -> -> ->. Qed.

(** X21. [removeAdmin] and [deactivateUser], whatever id the request
    names, never change the stored record of the user who sends the
    request: through these two handlers nobody takes the admin role from
    themselves or deactivates themselves. [deactivateAccount] is not so
    guarded: it stores its sender, admin or not, as inactive, changing
    nothing else of the record. *)
Theorem removeAdmin_deactivateUser_spare_sender (db : DB) (id : ObjectId)
    (reqUser : User) :
  users (removeAdmin db id reqUser).1 !! _id reqUser =
    users db !! _id reqUser ∧
  users (deactivateUser db id reqUser).1 !! _id reqUser =
    users db !! _id reqUser ∧
  users (deactivateAccount db reqUser).1 !! _id reqUser =
    set_isActive false <$> users db !! _id reqUser.
Proof.
  unfold removeAdmin, deactivateUser, deactivateAccount, stored.
  split; [|split].
  - destruct (users db !! id) as [u|]; simpl; [|done].
    repeat case_bool_decide; simpl; try done. by rewrite lookup_insert_ne.
  - destruct (users db !! id) as [u|]; simpl; [|done].
    destruct (isActive u); simpl; [|done].
    case_bool_decide; simpl; [done|]. by rewrite lookup_insert_ne.
  - simpl. by rewrite lookup_alter_eq.
Qed.

(** X22. After [deactivateUser] has deactivated a stored user, [protect]
    refuses a verified token of that user with 401; [reactivateUser] then
    gives back the store as it was before the deactivation (the
    library's updatedAt stamp aside). After
    [deactivateAccount], [protect] never lets the user's own token
    through. *)
Theorem deactivation_locks_out (db : DB) (id : ObjectId) (u reqUser : User) :
  users db !! id = Some u →
  isActive u = true →
  id ≠ _id reqUser →
  let db1 := (deactivateUser db id reqUser).1 in
  protect db1 (Verified id) =
    Answered (failure 401 "User account is deactivated") ∧
  (reactivateUser db1 id).1 = db ∧
  ∃ r, protect (deactivateAccount db reqUser).1 (Verified (_id reqUser)) =
         Answered r.
Proof.
  intros Hu Hactive Hne db1. unfold db1, deactivateUser, stored.
  rewrite Hu, Hactive. simpl. rewrite bool_decide_eq_false_2 by done. simpl.
  split; [|split].
  - unfold protect. simpl. by rewrite lookup_insert_eq.
  - unfold reactivateUser, stored. simpl. rewrite lookup_insert_eq. simpl.
    apply DB_eq; simpl; try done.
    rewrite insert_insert_eq. apply insert_id.
    rewrite Hu. f_equal. destruct u. simpl in *. by subst.
  - unfold protect, deactivateAccount. simpl. rewrite lookup_alter_eq.
    destruct (users db !! _id reqUser); simpl; by eexists.
Qed.

Lemma deactivation_locks_out_witness :
  let bob := create 2%N "bob" "bob@forum" "hash" "img" 0 0 in
  let root := create 9%N "root" "root@forum" "hash" "img" 0 0 in
  let db := {| posts := ∅; comments := ∅;
               users := {[ 2%N := bob; 9%N := root ]} |} in
  protect (deactivateUser db 2%N root).1 (Verified 2%N) =
    Answered (failure 401 "User account is deactivated") ∧
  (reactivateUser (deactivateUser db 2%N root).1 2%N).1 = db.
Proof.
  intros bob root db.
  destruct (deactivation_locks_out db 2%N bob root) as (Hlocked & Hback & _);
    [reflexivity|reflexivity|done|].
  split; [exact Hlocked|exact Hback].
Defined.

(** X23. [makeAdmin] on a stored user who is not an admin stores the
    admin role, so that [admin] lets that user through; [removeAdmin] by
    another user then gives back the store as it was (the library's
    updatedAt stamp aside). Each of the
    two refuses with 400, writing nothing, when the role is already the
    one asked for. *)
Theorem admin_role_round_trip (db : DB) (id : ObjectId) (u reqUser : User) :
  users db !! id = Some u →
  role u = Role.user →
  id ≠ _id reqUser →
  let db1 := (makeAdmin db id).1 in
  (∃ u1, users db1 !! id = Some u1 ∧ admin (Some u1) = Next tt) ∧
  admin (Some u) = Answered (failure 403 "Admin access required") ∧
  (removeAdmin db1 id reqUser).1 = db ∧
  makeAdmin db1 id = (db1, failure 400 "User is already an admin") ∧
  removeAdmin db id reqUser = (db, failure 400 "User is not an admin").
Proof.
  intros Hu Hrole Hne db1. unfold db1, makeAdmin, removeAdmin, stored.
  rewrite Hu, Hrole. simpl. rewrite lookup_insert_eq. simpl.
  split; [by eexists|]. split; [by unfold admin; rewrite Hrole|].
  split; [|done].
  rewrite bool_decide_eq_false_2 by done. simpl.
  apply DB_eq; simpl; try done.
  rewrite insert_insert_eq. apply insert_id.
  rewrite Hu. f_equal. destruct u. simpl in *. by subst.
Qed.

Lemma admin_role_round_trip_witness :
  let bob := create 2%N "bob" "bob@forum" "hash" "img" 0 0 in
  let root := create 9%N "root" "root@forum" "hash" "img" 0 0 in
  let db := {| posts := ∅; comments := ∅;
               users := {[ 2%N := bob; 9%N := root ]} |} in
  (removeAdmin (makeAdmin db 2%N).1 2%N root).1 = db.
Proof.
  intros bob root db.
  destruct (admin_role_round_trip db 2%N bob root) as (_ & _ & Hback & _);
    [reflexivity|reflexivity|done|].
  exact Hback.
Defined.

End UserAdminDetails.

(** ** Creating a post: the posting limit and the tag counters *)
Section PostCreationDetails.
Import PostModel PostCreation.

Variable toLowerCase trim castTag : string → string.
Variable validates : Post → bool.


(** X25. A user who is not gold and has five or more active posts is
    refused by [createPost] with the post-limit answer; once
    [upgradeMembership] has upgraded that user, the same request, made
    with the stored user before the new expiry, is not refused for the
    limit: it stores the post and answers 201 when the document passes
    the schema's validators. *)
Theorem createPost_after_upgrade (db : DB) (tags' : gmap string TagModel.Tag)
    (t d : string) (bodyTags : list string) (reqUser u : UserModel.User)
    (now dateNow tEarned now' : Date) (newId : ObjectId) (tCreated : Date) :
  users db !! UserModel._id reqUser = Some u →
  UserModel.membership u ≠ UserModel.gold →
  (5 ≤ AuthController.countActivePosts db (UserModel._id u))%nat →
  t ≠ "" → d ≠ "" → bodyTags ≠ [] →
  now' < dateNow + 31536000000 →
  let db1 :=
    (UserController.upgradeMembership db reqUser dateNow tEarned).1 in
  let u1 := UserModel.upgradeToGold u dateNow tEarned in
  (∃ r, PostCreation.createPost toLowerCase trim castTag validates db tags' (Some t) (Some d) (Some bodyTags) u now newId
          tCreated = (db, tags', LimitReached r)) ∧
  users db1 !! UserModel._id reqUser = Some u1 ∧
  let out := PostCreation.createPost toLowerCase trim castTag validates db1 tags' (Some t) (Some d) (Some bodyTags) u1 now'
               newId tCreated in
  (∀ r, out.2 ≠ LimitReached r) ∧
  (∀ p, p = create newId (trim t) d
              (castTag <$> ((λ tag, trim (toLowerCase tag)) <$> bodyTags))
              (UserModel._id u1) (UserModel.name u1) (UserModel.email u1)
              (UserModel.profileImage u1) tCreated →
        validates p = true →
        posts out.1.1 !! newId = Some p ∧
        ∃ r, out.2 = Answer r ∧ status r = 201%nat).
Proof.
  intros Hu Hm Hcount Ht%String.eqb_neq Hd%String.eqb_neq Hne Hnow db1 u1.
  assert (truthy (Some t) = Some t) as Htt by (simpl; by rewrite Ht).
  assert (truthy (Some d) = Some d) as Hdd by (simpl; by rewrite Hd).
  clear Ht Hd. rename Htt into Ht, Hdd into Hd.
  destruct (upgradeMembership_stores db reqUser u dateNow tEarned Hu Hm)
    as [Hu1 Hposts]. fold db1 in Hu1, Hposts.
  assert (UserModel.hasMembership u now = false) as Hno.
  { unfold UserModel.hasMembership. by rewrite bool_decide_eq_false_2. }
  assert (UserModel.hasMembership u1 now' = true) as Hyes.
  { unfold UserModel.hasMembership, u1.
    destruct (membership_upgradeToGold u dateNow tEarned) as [-> ->].
    by rewrite !bool_decide_eq_true_2. }
  destruct bodyTags as [|tag rest]; [done|].
  split; [|split; [done|]].
  - unfold PostCreation.createPost. rewrite Ht, Hd, Hno.
    rewrite (proj2 (Nat.leb_le _ _) Hcount). simpl. by eexists.
  - intros out. unfold out, PostCreation.createPost.
    rewrite Ht, Hd, Hyes. simpl. split.
    + by destruct (validates _).
    + intros p -> ->. simpl. rewrite lookup_insert_eq.
      split; [done|]. by eexists.
Qed.

End PostCreationDetails.

Section TagDetails.
Import TagModel PostCreation.

Lemma countUsage_lookup tags' tagName name' :
  countUsage tags' tagName !! name' =
  match tags' !! name' with
  | Some t =>
      if bool_decide (name' = tagName ∧ 0 ≤ usageCount t + 1)
      then Some (set_usageCount (usageCount t + 1) t)
      else Some t
  | None => None
  end.
Proof.
  unfold countUsage, incrementUsage, save.
  destruct (decide (name' = tagName)) as [->|Hne].
  - destruct (tags' !! tagName) as [t|] eqn:Ht; [|by rewrite Ht]. simpl.
    case_bool_decide as Hpos.
    + rewrite lookup_insert_eq. by rewrite bool_decide_eq_true_2.
    + rewrite Ht. rewrite bool_decide_eq_false_2; [done|]. by intros [_ ?].
  - assert (countUsage tags' tagName !! name' = tags' !! name') as Hsame.
    { unfold countUsage, incrementUsage, save.
      destruct (tags' !! tagName) as [t|]; [|done]. simpl.
      case_bool_decide; [by rewrite lookup_insert_ne|done]. }
    unfold countUsage, incrementUsage, save in Hsame. rewrite Hsame.
    destruct (tags' !! name'); [|done].
    rewrite bool_decide_eq_false_2; [done|]. by intros [? _].
Qed.

(** X26. The loop that counts tag usage, run by [createPost] on the
    normalized tag names of the new post, adds to the usage count of every
    stored tag (whose count is not negative) the number of times its name
    occurs in the list, so a name given twice is counted twice; it changes
    nothing else of a tag and never creates a tag for a name that has
    none. *)
Theorem countUsages_spec (normalizedTags : list string)
    (tags' : gmap string Tag) (name' : string) :
  match tags' !! name' with
  | Some t =>
      0 ≤ usageCount t →
      countUsages normalizedTags tags' !! name' =
        Some (set_usageCount
                (usageCount t +
                 Z.of_nat (length (filter (λ n, n = name') normalizedTags)))
                t)
  | None => countUsages normalizedTags tags' !! name' = None
  end.
Proof.
  unfold countUsages. revert tags'.
  induction normalizedTags as [|n l IH]; intros tags'; simpl.
  - destruct (tags' !! name') as [t|]; [|done].
    intros _. f_equal. destruct t. unfold set_usageCount. simpl. f_equal. lia.
  - specialize (IH (countUsage tags' n)).
    rewrite countUsage_lookup in IH. rewrite filter_cons.
    destruct (tags' !! name') as [t|]; [|done].
    intros Hpos. case_bool_decide as Hn.
    + destruct Hn as [-> _]. rewrite decide_True by done.
      rewrite IH by (simpl; lia). simpl. unfold set_usageCount. simpl.
      do 2 f_equal. lia.
    + destruct (decide (n = name')) as [->|Hne].
      * destruct Hn. split; [done|lia].
      * by rewrite IH.
Qed.

(** On a tag whose usage count is not negative, [incrementUsage] and
    [decrementUsage] both save and keep the count from going below zero;
    [decrementUsage] at zero changes nothing, and [decrementUsage] after
    [incrementUsage] gives back the tag. *)
Lemma usageCount_never_negative (t : Tag) :
  0 ≤ usageCount t →
  (incrementUsage t).2 = None ∧ (decrementUsage t).2 = None ∧
  usageCount (incrementUsage t).1 = usageCount t + 1 ∧
  usageCount (decrementUsage t).1 = Z.max 0 (usageCount t - 1) ∧
  decrementUsage (incrementUsage t).1 = (t, None).
Proof.
  intros Hpos. unfold incrementUsage, decrementUsage, save. simpl.
  rewrite (bool_decide_eq_true_2 (0 ≤ usageCount t + 1)) by lia. simpl.
  rewrite (bool_decide_eq_true_2 (0 < usageCount t + 1)) by lia.
  rewrite (bool_decide_eq_true_2 (0 ≤ usageCount t + 1 - 1)) by lia.
  split; [done|].
  destruct (decide (0 < usageCount t)) as [Hgt|Hle].
  - rewrite (bool_decide_eq_true_2 (0 < usageCount t)) by done. simpl.
    rewrite (bool_decide_eq_true_2 (0 ≤ usageCount t - 1)) by lia. simpl.
    split; [done|]. split; [done|]. split; [lia|].
    f_equal. destruct t. unfold set_usageCount. simpl in *. f_equal. lia.
  - rewrite (bool_decide_eq_false_2 (0 < usageCount t)) by done. simpl.
    split; [done|]. split; [done|]. split; [lia|].
    f_equal. destruct t. unfold set_usageCount. simpl in *. f_equal. lia.
Qed.

End TagDetails.

(** ** Announcements: expiry, audiences, clean-up *)
Section AnnouncementDetails.
Import AnnouncementModel AnnouncementController.




Lemma matchesCurrent_all now a :
  matchesCurrent all now a = isCurrent a now.
Proof.
  unfold matchesCurrent, isCurrent. simpl. by rewrite andb_true_r.
Qed.

(** X28. The list and the single read disagree on audiences. For a
    visitor who is not signed in, or whose stored tier is not gold,
    [getAnnouncements] lists every current announcement, whatever its
    target audience; for a gold user it lists the current ones aimed at
    members or at all, never those aimed at admins. [getAnnouncement], on
    a current announcement, answers 403 and counts no view when it is
    aimed at members and the reader is not gold, or aimed at admins and
    the reader is not an admin. *)
Theorem announcement_audiences (db : DB) (anns : gmap ObjectId Announcement)
    (id : ObjectId) (a : Announcement) (reqUser : option UserModel.User)
    (now tSave : Date) :
  anns !! id = Some a →
  isCurrent a now = true →
  let gold := ∃ u, reqUser = Some u ∧
                   UserModel.membership u = UserModel.gold in
  let isAdmin := ∃ u, reqUser = Some u ∧
                      UserModel.role u = UserModel.Role.admin in
  (¬ gold → (getAnnouncements anns reqUser now).2 !! id = Some a) ∧
  (gold → ((getAnnouncements anns reqUser now).2 !! id = Some a ↔
           targetAudience a ≠ admins)) ∧
  (targetAudience a = members → ¬ gold →
   getAnnouncement db anns id reqUser now tSave =
     (anns, failure 403 "This announcement is for members only")) ∧
  (targetAudience a = admins → ¬ isAdmin →
   getAnnouncement db anns id reqUser now tSave =
     (anns, failure 403 "This announcement is for admins only")).
Proof.
  intros Ha Hcur gold isAdmin.
  assert (gold → audienceOf reqUser = members) as Hgold.
  { intros (u & -> & Hm). unfold audienceOf.
    rewrite bool_decide_eq_true_2 by done. done. }
  assert (¬ gold → audienceOf reqUser = all) as Hnogold.
  { intros Hng. unfold audienceOf. destruct reqUser as [u|]; [|done].
    rewrite bool_decide_eq_false_2; [done|].
    intros Hm. apply Hng. by exists u. }
  assert (isActive a = true ∧
          match expiresAt a with
          | Some t => bool_decide (now < t)
          | None => true
          end = true) as [Hactive Hexp]
    by by apply andb_true_iff.
  unfold getAnnouncements, getCurrentAnnouncements. simpl.
  split; [|split; [|split]].
  - intros Hng. rewrite (Hnogold Hng).
    apply map_lookup_filter_Some. split; [done|]. simpl.
    by rewrite matchesCurrent_all.
  - intros Hg. rewrite (Hgold Hg).
    rewrite map_lookup_filter_Some. simpl. unfold matchesCurrent.
    rewrite Hactive, Hexp. simpl.
    destruct (targetAudience a); simpl; split; try done.
    + by intros [_ ?].
  - intros Hmem Hng. unfold getAnnouncement. rewrite Ha, Hcur. simpl.
    rewrite bool_decide_eq_true_2 by done. simpl.
    destruct reqUser as [u|]; [|done].
    rewrite bool_decide_eq_true_2; [done|].
    intros Hm. apply Hng. exists u. done.
  - intros Hadm Hna. unfold getAnnouncement. rewrite Ha, Hcur. simpl.
    rewrite Hadm. simpl.
    destruct reqUser as [u|]; [|done].
    rewrite bool_decide_eq_true_2; [done|].
    intros Hr. apply Hna. exists u. done.
Qed.

Lemma announcement_audiences_witness :
  let a := {| _id := 40%N; title := "Rota"; description := "for the team";
              author := 9%N; authorName := "root"; authorImage := "img";
              priority := low; type := general; isActive := true;
              isPinned := false; expiresAt := None; views := 0;
              targetAudience := admins |} in
  let db := {| posts := ∅; comments := ∅; users := ∅ |} in
  (getAnnouncements {[ 40%N := a ]} None 5).2 !! 40%N = Some a ∧
  getAnnouncement db {[ 40%N := a ]} 40%N None 5 5 =
    ({[ 40%N := a ]}, failure 403 "This announcement is for admins only").
Proof.
  intros a db.
  destruct (announcement_audiences db {[ 40%N := a ]} 40%N a None 5 5)
    as (Hlisted & _ & _ & Hrefused); [reflexivity|reflexivity|].
  split.
  - apply Hlisted. by intros (? & [=] & _).
  - apply Hrefused; [reflexivity|]. by intros (? & [=] & _).
Defined.

(** X29. After [cleanupExpired] at a time [now] no announcement is both
    active and expired at [now]; announcements that were not are left as
    they were; and the clean-up changes nothing of what
    [getCurrentAnnouncements] finds at [now] or later, for any audience. *)
Theorem cleanupExpired_spec (anns : gmap ObjectId Announcement) (now : Date) :
  (∀ id a, cleanupExpired anns now !! id = Some a →
           ∀ t, expiresAt a = Some t → t ≤ now → isActive a = false) ∧
  (∀ id a, anns !! id = Some a →
           isActive a = false ∨ expiresAt a = None ∨
             (∃ t, expiresAt a = Some t ∧ now < t) →
           cleanupExpired anns now !! id = Some a) ∧
  (∀ audience later, now ≤ later →
     getCurrentAnnouncements (cleanupExpired anns now) audience later =
     getCurrentAnnouncements anns audience later).
Proof.
  unfold cleanupExpired. split; [|split].
  - intros id a. rewrite lookup_fmap.
    destruct (anns !! id) as [b|]; simpl; [|done].
    destruct (expiresAt b) as [t|] eqn:Hb.
    + case_bool_decide as Hc; intros [= <-]; simpl; [done|].
      rewrite Hb. intros ? [= <-] Hle.
      destruct (isActive b); [|done]. destruct Hc. done.
    + intros [= <-]. by rewrite Hb.
  - intros id a Ha Hkeep. rewrite lookup_fmap, Ha. simpl.
    destruct (expiresAt a) as [t|]; [|done].
    rewrite bool_decide_eq_false_2; [done|].
    intros [Hle Hact]. destruct Hkeep as [?|[?|(? & [= <-] & ?)]];
      [congruence|done|lia].
  - intros audience later Hlater. unfold getCurrentAnnouncements.
    apply map_eq. intros id. apply option_eq. intros a.
    rewrite !map_lookup_filter_Some, lookup_fmap. simpl.
    destruct (anns !! id) as [b|]; simpl; [|naive_solver].
    destruct (expiresAt b) as [t|] eqn:Hb; [|naive_solver].
    case_bool_decide as Hc; [|naive_solver].
    destruct Hc as [Hle Hact]. split.
    + intros [[= <-] Hm]. unfold matchesCurrent in Hm. simpl in Hm. done.
    + intros [[= <-] Hm]. unfold matchesCurrent in Hm.
      rewrite Hb, bool_decide_eq_false_2 in Hm by lia.
      by rewrite andb_false_r in Hm.
Qed.

End AnnouncementDetails.

(** ** The auth store of the client *)
Section AuthContextDetails.
Import AuthContext.

Variable Value : Type.

(** X30. Whatever actions are dispatched from the initial state, the
    store is authenticated only if a LOGIN_SUCCESS was among them, and an
    authenticated store carries no error message and the token of the
    last LOGIN_SUCCESS. *)
Theorem auth_store_invariant (storedToken : option string)
    (actions : list (Action Value)) :
  let s := dispatched Value storedToken actions in
  isAuthenticated Value s = true →
  error Value s = None ∧
  ∃ before payloadUser payloadToken after,
    actions = before ++ LOGIN_SUCCESS Value payloadUser payloadToken :: after ∧
    Forall (λ a, ¬ isLoginSuccess Value a) after ∧
    token Value s = payloadToken.
Proof.
  unfold dispatched.
  induction actions as [|a actions IH] using rev_ind; [done|].
  rewrite foldl_app. simpl.
  destruct a as [|pu pt|msg| |b|pl| |ty]; simpl; try done.
  - intros Hauth. destruct (IH Hauth) as (_ & bf & u & t & af & -> & Haf & Ht).
    split; [done|]. exists bf, u, t, (af ++ [LOGIN_START Value]).
    rewrite <- app_assoc. split; [done|]. split; [|done].
    apply Forall_app. split; [done|]. apply Forall_singleton. by intros [].
  - intros _. split; [done|]. exists actions, pu, pt, [].
    split; [done|]. split; [constructor|done].
  - intros Hauth. destruct (IH Hauth) as (He & bf & u & t & af & -> & Haf & Ht).
    split; [done|]. exists bf, u, t, (af ++ [SET_LOADING Value b]).
    rewrite <- app_assoc. split; [done|]. split; [|done].
    apply Forall_app. split; [done|]. apply Forall_singleton. by intros [].
  - intros Hauth. destruct (IH Hauth) as (He & bf & u & t & af & -> & Haf & Ht).
    split; [done|]. exists bf, u, t, (af ++ [UPDATE_USER Value pl]).
    rewrite <- app_assoc. split; [done|]. split; [|done].
    apply Forall_app. split; [done|]. apply Forall_singleton. by intros [].
  - intros Hauth. destruct (IH Hauth) as (_ & bf & u & t & af & -> & Haf & Ht).
    split; [done|]. exists bf, u, t, (af ++ [CLEAR_ERROR Value]).
    rewrite <- app_assoc. split; [done|]. split; [|done].
    apply Forall_app. split; [done|]. apply Forall_singleton. by intros [].
  - intros Hauth. destruct (IH Hauth) as (He & bf & u & t & af & -> & Haf & Ht).
    split; [done|]. exists bf, u, t, (af ++ [OTHER Value ty]).
    rewrite <- app_assoc. split; [done|]. split; [|done].
    apply Forall_app. split; [done|]. apply Forall_singleton. by intros [].
Qed.

End AuthContextDetails.

(** ** Instances of the statements above *)
Section Instances.
Import PostModel.


Lemma createPost_after_upgrade_witness :
  let bob := UserModel.create 2%N "bob" "bob@forum" "hash" "img" 0 0 in
  let p i := create i "title" "text" ["tag"] 2%N "bob" "bob@forum" "img" 0 in
  let db := {| posts := {[ 11%N := p 11%N; 12%N := p 12%N; 13%N := p 13%N;
                           14%N := p 14%N; 15%N := p 15%N ]};
               comments := ∅; users := {[ 2%N := bob ]} |} in
  let db1 := (UserController.upgradeMembership db bob 100 101).1 in
  let bob1 := UserModel.upgradeToGold bob 100 101 in
  (∃ r, PostCreation.createPost (λ s, s) (λ s, s) (λ s, s) (λ _, true)
          db ∅ (Some "sixth") (Some "text") (Some ["tag"]) bob 5 16%N 5
        = (db, ∅, PostCreation.LimitReached r)) ∧
  ∃ r, (PostCreation.createPost (λ s, s) (λ s, s) (λ s, s) (λ _, true)
          db1 ∅ (Some "sixth") (Some "text") (Some ["tag"]) bob1 200 16%N
          200).2 = PostCreation.Answer r ∧ status r = 201%nat.
Proof.
  intros bob p db db1 bob1.
  destruct (createPost_after_upgrade (λ s, s) (λ s, s) (λ s, s) (λ _, true)
              db ∅ "sixth" "text" ["tag"] bob bob 5 100 101 200 16%N 200)
    as (Hrefused & _ & _ & Hstored).
  - reflexivity.
  - done.
  - vm_compute. lia.
  - done.
  - done.
  - done.
  - lia.
  - split; [exact Hrefused|].
    exact (proj2 (Hstored _ eq_refl eq_refl)).
Defined.

Lemma countUsages_spec_witness :
  let t := {| TagModel._id := 50%N; TagModel.name := "rocq";
              TagModel.displayName := "Rocq"; TagModel.description := "";
              TagModel.color := "#3B82F6"; TagModel.isActive := true;
              TagModel.createdBy := 9%N; TagModel.usageCount := 3 |} in
  TagModel.usageCount
    <$> PostCreation.countUsages ["rocq"; "proofs"; "rocq"] {[ "rocq" := t ]}
        !! "rocq" = Some 5 ∧
  PostCreation.countUsages ["rocq"; "proofs"; "rocq"] {[ "rocq" := t ]}
    !! "proofs" = None.
Proof.
  intros t.
  pose proof (countUsages_spec ["rocq"; "proofs"; "rocq"] {[ "rocq" := t ]}
                "rocq") as Hrocq.
  pose proof (countUsages_spec ["rocq"; "proofs"; "rocq"] {[ "rocq" := t ]}
                "proofs") as Hproofs.
  split.
  - change (({[ "rocq" := t ]} : gmap string TagModel.Tag) !! "rocq")
      with (Some t) in Hrocq.
    rewrite Hrocq by (simpl; lia). reflexivity.
  - exact Hproofs.
Defined.

Lemma auth_store_invariant_witness :
  let actions :=
    [AuthContext.LOGIN_START string;
     AuthContext.LOGIN_FAILURE string "Invalid credentials";
     AuthContext.LOGIN_START string;
     AuthContext.LOGIN_SUCCESS string (Some {[ "name" := "bob" ]})
       (Some "token-1");
     AuthContext.UPDATE_USER string (Some {[ "membership" := "gold" ]})] in
  let s := AuthContext.dispatched string (Some "stale") actions in
  AuthContext.error string s = None ∧
  AuthContext.token string s = Some "token-1".
Proof.
  intros actions s.
  destruct (auth_store_invariant string (Some "stale") actions)
    as (Herror & _); [reflexivity|].
  split; [exact Herror|reflexivity].
Defined.

End Instances.
